(** * movesense_sensor.py: sensor catalogs, subscription paths and sample decoding

    A shallow embedding of [src/movesense/movesense_sensor.py].

    - Python [int] is [Z]; [str] is [string] (code points below 256);
      a [bytearray] is a [list Z] of values in [0, 256).
    - Python floats are idealised as exact rationals ([Q]); timestamps
      are compared with [==].
    - Exceptions are values of [PyExn]; code that can raise returns a
      [result].  Code that mutates [MovesenseSensor.id_counter] or a
      sensor's [data] list runs in the state-and-exception monad [M]. *)

From Stdlib Require Import ZArith QArith String Ascii List Lia Bool.
From Stdlib Require Import DecimalString Sorted.
From Stdlib Require Import Permutation Lqa DecimalZ DecimalPos.
Import ListNotations.

Local Open Scope string_scope.
Local Open Scope list_scope.
Local Open Scope Z_scope.

(* ===================================================================== *)
(** ** Values, exceptions and results *)
(* ===================================================================== *)

(** The two enumerations of the source.  Constructor order is the
    declaration order, which is also the iteration order of
    [for member in cls]. *)
Inductive MovesenseSensorType : Type :=
| ACCELEROMETER | GYROSCOPE | MAGNETOMETER | TEMPERATURE
| ECG | HEART_RATE | IMU6 | IMU9.

Inductive MovesenseSamplingRate : Type :=
| _13_HZ | _26_HZ | _52_HZ | _104_HZ | _208_HZ | _416_HZ | _833_HZ | _1666_HZ
| _125_HZ | _128_HZ | _200_HZ | _250_HZ | _256_HZ | _500_HZ | _512_HZ.

(** The Python values a caller can hand to the constructor: a string, an
    integer, a float (a finite one, read as a rational), a member of
    either enumeration, or one of the two enumeration classes
    themselves. *)
Inductive pyval : Type :=
| PyStr (s : string)
| PyInt (n : Z)
| PyFloat (x : Q)
| PyKind (k : MovesenseSensorType)
| PyRate (r : MovesenseSamplingRate)
| PyKindClass
| PyRateClass.

(** Every [ValueError] of the module, told apart by the place that
    raises it. *)
Inductive ValueErrorSite : Type :=
| NoSensorTypeMember (value : pyval)     (* from_string, line 33 *)
| NoSamplingRateMember (value : pyval)   (* from_int, line 60 *)
| UnpackMismatch (got : nat)             (* from_path, line 90 *)
| InvalidIntLiteral (s : string)         (* from_path, line 91: int() *)
| ByteOutOfRange                         (* __init__, line 83: bytearray() *)
| CannotReshape (size : nat) (cols : Z). (* notification_handler, line 99 *)

Inductive PyExn : Type :=
| ValueError (site : ValueErrorSite)
| AttributeError.

Inductive result (A : Type) : Type :=
| Ok (a : A)
| Raise (e : PyExn).
Arguments Ok {A} a.
Arguments Raise {A} e.

(** The error kinds the specification names, and which exception of the
    code stands for each. *)
Inductive ErrorKind : Type :=
| UnknownSensorKind | UnknownSamplingRate | MalformedPath
| MalformedBuffer | IdOutOfRange.

Definition error_kind (e : PyExn) : option ErrorKind :=
  match e with
  | ValueError (NoSensorTypeMember _) => Some UnknownSensorKind
  | ValueError (NoSamplingRateMember _) => Some UnknownSamplingRate
  | ValueError (UnpackMismatch _) => Some MalformedPath
  | ValueError (InvalidIntLiteral _) => Some MalformedPath
  | ValueError ByteOutOfRange => Some IdOutOfRange
  | ValueError (CannotReshape _ _) => Some MalformedBuffer
  | AttributeError => None
  end.

(** State-and-exception monad: an exception leaves the state as it was
    when it was raised. *)
Definition M (S A : Type) : Type := S -> result A * S.

Definition ret {S A} (a : A) : M S A := fun s => (Ok a, s).

Definition bind {S A B} (m : M S A) (f : A -> M S B) : M S B :=
  fun s => match m s with
           | (Ok a, s') => f a s'
           | (Raise e, s') => (Raise e, s')
           end.

Definition lift {S A} (r : result A) : M S A := fun s => (r, s).

Notation "x <- m ;; k" := (bind m (fun x => k))
  (at level 61, m at next level, right associativity).
Notation "m ;;; k" := (bind m (fun _ => k))
  (at level 61, right associativity).

(* ===================================================================== *)
(** ** Python built-ins used by the module *)
(* ===================================================================== *)

Module Py.

Definition ord (c : ascii) : Z := Z.of_N (N_of_ascii c).

(** [value.startswith(prefix)] *)
Definition startswith (value pre : string) : bool := String.prefix pre value.

(** [s.split(sep)] for a one-character separator: every occurrence
    separates, so [n] separators give [n + 1] segments. *)
Fixpoint split (sep : ascii) (s : string) : list string :=
  match s with
  | EmptyString => [EmptyString]
  | String c rest =>
      if Ascii.eqb c sep then EmptyString :: split sep rest
      else match split sep rest with
           | seg :: segs => String c seg :: segs
           | [] => [String c EmptyString]
           end
  end.

(** [str(n)] for an integer, as an f-string renders it. *)
Definition str (n : Z) : string := NilZero.string_of_int (Z.to_int n).

(** Whitespace that [int()] strips from both ends of a string. *)
Definition isspace (c : ascii) : bool :=
  let n := ord c in
  ((9 <=? n) && (n <=? 13)) || (n =? 32) || (n =? 133) || (n =? 160).

Definition digit_value (c : ascii) : option Z :=
  let n := ord c in
  if (48 <=? n) && (n <=? 57) then Some (n - 48) else None.

Definition is_underscore (c : ascii) : bool := ord c =? 95.

Fixpoint lstrip (cs : list ascii) : list ascii :=
  match cs with
  | c :: rest => if isspace c then lstrip rest else cs
  | [] => []
  end.

Definition strip (cs : list ascii) : list ascii :=
  rev (lstrip (rev (lstrip cs))).

(** Digits after the first one: a single underscore may stand between
    two digits, nowhere else. *)
Fixpoint int_digits (acc : Z) (cs : list ascii) : option Z :=
  match cs with
  | [] => Some acc
  | c :: rest =>
      if is_underscore c then
        match rest with
        | d :: rest' =>
            match digit_value d with
            | Some v => int_digits (10 * acc + v) rest'
            | None => None
            end
        | [] => None
        end
      else
        match digit_value c with
        | Some v => int_digits (10 * acc + v) rest
        | None => None
        end
  end.

Definition int_unsigned (cs : list ascii) : option Z :=
  match cs with
  | c :: rest =>
      match digit_value c with
      | Some v => int_digits v rest
      | None => None
      end
  | [] => None
  end.

(** [int(s)] in base 10; [None] is the [ValueError] for an invalid
    literal.  (The interpreter's limit on the number of digits is not
    part of the model.) *)
Definition int (s : string) : option Z :=
  match strip (list_ascii_of_string s) with
  | c :: rest =>
      if Ascii.eqb c "+" then int_unsigned rest
      else if Ascii.eqb c "-" then option_map Z.opp (int_unsigned rest)
      else int_unsigned (c :: rest)
  | [] => None
  end.

(** [bytearray(ints)]: every element must be in [range(0, 256)]. *)
Definition bytearray (ints : list Z) : result (list Z) :=
  if forallb (fun x => (0 <=? x) && (x <? 256)) ints
  then Ok ints else Raise (ValueError ByteOutOfRange).

(** UTF-8 of one code point below 256. *)
Definition utf8_char (c : ascii) : list Z :=
  let n := ord c in
  if n <? 128 then [n]
  else [Z.lor 192 (Z.shiftr n 6); Z.lor 128 (Z.land n 63)].

(** [bytearray(text, "utf-8")] *)
Definition utf8 (text : string) : list Z :=
  flat_map utf8_char (list_ascii_of_string text).

End Py.

(* ===================================================================== *)
(** ** Enumerations *)
(* ===================================================================== *)

(** What the source uses of [enum.Enum]: iteration over the members in
    declaration order, and a member's [.value]. *)
Class Enum (E V : Type) : Type := {
  members : list E;
  value : E -> V
}.

#[export] Instance Enum_MovesenseSensorType : Enum MovesenseSensorType string := {|
  members := [ACCELEROMETER; GYROSCOPE; MAGNETOMETER; TEMPERATURE;
              ECG; HEART_RATE; IMU6; IMU9];
  value k :=
    match k with
    | ACCELEROMETER => "Acc"
    | GYROSCOPE => "Gyro"
    | MAGNETOMETER => "Magn"
    | TEMPERATURE => "Temp"
    | ECG => "ECG"
    | HEART_RATE => "HR"
    | IMU6 => "IMU6"
    | IMU9 => "IMU9"
    end
|}.

Definition axes (k : MovesenseSensorType) : Z :=
  match k with
  | ACCELEROMETER | GYROSCOPE | MAGNETOMETER => 3
  | TEMPERATURE | ECG | HEART_RATE => 1
  | IMU6 => 6
  | IMU9 => 9
  end.

#[export] Instance Enum_MovesenseSamplingRate : Enum MovesenseSamplingRate Z := {|
  members := [_13_HZ; _26_HZ; _52_HZ; _104_HZ; _208_HZ; _416_HZ; _833_HZ;
              _1666_HZ; _125_HZ; _128_HZ; _200_HZ; _250_HZ; _256_HZ;
              _500_HZ; _512_HZ];
  value r :=
    match r with
    | _13_HZ => 13 | _26_HZ => 26 | _52_HZ => 52 | _104_HZ => 104
    | _208_HZ => 208 | _416_HZ => 416 | _833_HZ => 833 | _1666_HZ => 1666
    | _125_HZ => 125 | _128_HZ => 128 | _200_HZ => 200 | _250_HZ => 250
    | _256_HZ => 256 | _500_HZ => 500 | _512_HZ => 512
    end
|}.

(** The loop of [MovesenseSensorType.from_string] over the remaining
    members, for a string argument. *)
Fixpoint from_string_loop (ms : list MovesenseSensorType) (v : string)
  : option MovesenseSensorType :=
  match ms with
  | [] => None
  | member :: rest =>
      if String.eqb (value member) v then Some member
      else if Py.startswith v (value member) then Some member
      else if String.eqb v "IMU" then Some IMU9
      else from_string_loop rest v
  end.

(** [MovesenseSensorType.from_string(value)].  For an argument that is
    not a string, [member.value == value] is false at the first member
    and [value.startswith] does not exist. *)
Definition from_string (v : pyval) : result MovesenseSensorType :=
  match v with
  | PyStr s =>
      match from_string_loop members s with
      | Some member => Ok member
      | None => Raise (ValueError (NoSensorTypeMember v))
      end
  | _ => Raise AttributeError
  end.

(** [member.value == value] in [from_int]: an integer equals a number
    of the same value, integer or float, and nothing else. *)
Definition int_eq_pyval (n : Z) (v : pyval) : bool :=
  match v with
  | PyInt m => n =? m
  | PyFloat x => Qeq_bool (inject_Z n) x
  | _ => false
  end.

(** The loop of [MovesenseSamplingRate.from_int] over the remaining
    members. *)
Fixpoint from_int_loop (ms : list MovesenseSamplingRate) (v : pyval)
  : option MovesenseSamplingRate :=
  match ms with
  | [] => None
  | member :: rest =>
      if int_eq_pyval (value member) v then Some member
      else from_int_loop rest v
  end.

(** [MovesenseSamplingRate.from_int(value)] *)
Definition from_int (v : pyval) : result MovesenseSamplingRate :=
  match from_int_loop members v with
  | Some member => Ok member
  | None => Raise (ValueError (NoSamplingRateMember v))
  end.

(* ===================================================================== *)
(** ** numpy operations used by the decoder *)
(* ===================================================================== *)

Module np.

(** Row-major chunks: [n] rows of [cols] consecutive values. *)
Fixpoint rows (n cols : nat) (data : list Q) : list (list Q) :=
  match n with
  | O => []
  | S n' => firstn cols data :: rows n' cols (skipn cols data)
  end.

(** [np.array(data).reshape(-1, cols)] for a flat [data]: the row
    count is inferred, and a size that [cols] does not divide is a
    [ValueError]. *)
Definition reshape (data : list Q) (cols : Z) : result (list (list Q)) :=
  let size := Z.of_nat (length data) in
  if (cols <=? 0) || negb (size mod cols =? 0)
  then Raise (ValueError (CannotReshape (length data) cols))
  else Ok (rows (Z.to_nat (size / cols)) (Z.to_nat cols) data).

(** [np.linspace(start, stop, num)] with the default [endpoint=True]:
    [start + i * step] with [step = (stop - start) / (num - 1)], the
    last entry set to [stop] when [num > 1]; for [num = 1] the single
    entry is [start]. *)
Definition linspace (start stop : Q) (num : nat) : list Q :=
  match num with
  | O => []
  | S O => [start]
  | S div =>
      let step := ((stop - start) / inject_Z (Z.of_nat div))%Q in
      map (fun i => (inject_Z (Z.of_nat i) * step + start)%Q) (seq 0 div)
        ++ [stop]
  end.

End np.

(* ===================================================================== *)
(** ** MovesenseSensor *)
(* ===================================================================== *)

(** The dictionary appended to [self.data] for every row; the fields are
    its keys. *)
Module Sample.
Record t : Type := {
  timestamp : Q;
  device : string;
  sensor_type : string;
  sensor_data : list Q
}.
End Sample.

(** What an attribute holds after lines 74-77: the enumeration class
    itself (when the identity test succeeded) or a member returned by
    the lookup. *)
Inductive slot (E : Type) : Type :=
| TheClass
| Member (m : E).
Arguments TheClass {E}.
Arguments Member {E} m.

Definition map_result {A B} (f : A -> B) (r : result A) : result B :=
  match r with
  | Ok a => Ok (f a)
  | Raise e => Raise e
  end.

Fixpoint for_each {S A} (xs : list A) (body : A -> M S unit) : M S unit :=
  match xs with
  | [] => ret tt
  | x :: rest => body x ;;; for_each rest body
  end.

Definition enumerate {A} (xs : list A) : list (nat * A) :=
  combine (seq 0 (length xs)) xs.

Module MovesenseSensor.

(** A constructed sensor. *)
Record t : Type := {
  sensor_type : MovesenseSensorType;
  sampling_rate : MovesenseSamplingRate;
  id : Z;
  path : list Z;
  data : list Sample.t
}.

(** Class-level state: the attribute [MovesenseSensor.id_counter]. *)
Record ClassState : Type := { id_counter : Z }.

(** [id_counter = 0] in the class body. *)
Definition initial : ClassState := {| id_counter := 0 |}.

Definition get_id_counter : M ClassState Z :=
  fun s => (Ok (id_counter s), s).

Definition set_id_counter (n : Z) : M ClassState unit :=
  fun _ => (Ok tt, {| id_counter := n |}).

(** [MovesenseSensor(sensor_type, sampling_rate)].  Lines 74-77: the
    test [x is Cls] holds for the class object alone; every other
    argument goes to the lookup.  Lines 79-80 take the id and increment
    the counter.  Lines 83-84 build the prefix first and then format
    the text, where [.value] exists on members only.  Line 86 starts
    the empty log. *)
Definition __init__ (sensor_type sampling_rate : pyval) : M ClassState t :=
  st <- lift (match sensor_type with
              | PyKindClass => Ok TheClass
              | _ => map_result Member (from_string sensor_type)
              end) ;;
  sr <- lift (match sampling_rate with
              | PyRateClass => Ok TheClass
              | _ => map_result Member (from_int sampling_rate)
              end) ;;
  id <- get_id_counter ;;
  set_id_counter (id + 1) ;;;
  prefix <- lift (Py.bytearray [1; id]) ;;
  match st, sr with
  | Member k, Member r =>
      ret {| sensor_type := k;
             sampling_rate := r;
             id := id;
             path := prefix ++
                     Py.utf8 ("/Meas/" ++ value k ++ "/" ++ Py.str (value r))%string;
             data := [] |}
  | _, _ => lift (Raise AttributeError)
  end.

(** [MovesenseSensor.from_path(path)] *)
Definition from_path (path : string) : M ClassState t :=
  match Py.split "/" path with
  | [_; _; sensor_type; sampling_rate] =>
      match Py.int sampling_rate with
      | Some n => __init__ (PyStr sensor_type) (PyInt n)
      | None => lift (Raise (ValueError (InvalidIntLiteral sampling_rate)))
      end
  | segments => lift (Raise (ValueError (UnpackMismatch (length segments))))
  end.

(** State seen by a method call on one sensor: the object and the
    class attribute. *)
Record ObjState : Type := {
  cls : ClassState;
  self : t
}.

Definition get_self : M ObjState t := fun s => (Ok (self s), s).

(** [self.data.append(sample)] *)
Definition append (sample : Sample.t) : M ObjState unit :=
  fun s =>
    (Ok tt,
     {| cls := cls s;
        self := {| sensor_type := sensor_type (self s);
                   sampling_rate := sampling_rate (self s);
                   id := id (self s);
                   path := path (self s);
                   data := data (self s) ++ [sample] |} |}).

(** [self.notification_handler(device_address, data)], run to
    completion as one step, with [now] the value that
    [datetime.datetime.now().timestamp()] returns and [data] a flat
    sequence of numbers. *)
Definition notification_handler (now : Q) (device_address : string)
    (data : list Q) : M ObjState unit :=
  let local_timestamp := now in
  this <- get_self ;;
  data <- lift (np.reshape data (axes (sensor_type this))) ;;
  let T_s := (1 / inject_Z (value (sampling_rate this)))%Q in
  let shape0 := length data in
  let local_timestamp :=
    map (fun y => (y + local_timestamp)%Q)
        (np.linspace (- T_s * inject_Z (Z.of_nat shape0))%Q 0%Q shape0) in
  for_each (enumerate data) (fun '(i, row) =>
    let sample := {| Sample.timestamp := nth i local_timestamp 0%Q;
                     Sample.device := device_address;
                     Sample.sensor_type := value (sensor_type this);
                     Sample.sensor_data := row |} in
    append sample).

End MovesenseSensor.

Import MovesenseSensor.

(* ===================================================================== *)
(** ** The lookup as the specification words it *)
(* ===================================================================== *)

(** Two passes over the catalog and then the alias: the first kind whose
    tag equals [tag]; if none, the first kind whose tag is a prefix of
    [tag]; if none, IMU9 for the literal ["IMU"]; otherwise the lookup
    fails. *)
Definition lookup_by_tag_spec (tag : string) : result MovesenseSensorType :=
  match find (fun k => String.eqb (value k) tag) members with
  | Some k => Ok k
  | None =>
      match find (fun k => String.prefix (value k) tag) members with
      | Some k => Ok k
      | None =>
          if String.eqb tag "IMU" then Ok IMU9
          else Raise (ValueError (NoSensorTypeMember (PyStr tag)))
      end
  end.

(* ===================================================================== *)
(** ** Auxiliary definitions for the statements *)
(* ===================================================================== *)

(** The text of the subscription path, one byte per character. *)
Definition path_text (k : MovesenseSensorType) (r : MovesenseSamplingRate)
  : string :=
  ("/Meas/" ++ value k ++ "/" ++ Py.str (value r))%string.

Definition char_codes (s : string) : list Z :=
  map Py.ord (list_ascii_of_string s).

(** The bytes of an ASCII text as the wire format wants them: one byte
    per character, the character's number. *)
Definition ascii_bytes (s : string) : list Z :=
  map (fun c => Z.of_nat (nat_of_ascii c)) (list_ascii_of_string s).

(** The decimal numeral of each permitted rate, written out. *)
Definition rate_numeral (R : MovesenseSamplingRate) : string :=
  match R with
  | _13_HZ => "13" | _26_HZ => "26" | _52_HZ => "52" | _104_HZ => "104"
  | _208_HZ => "208" | _416_HZ => "416" | _833_HZ => "833"
  | _1666_HZ => "1666" | _125_HZ => "125" | _128_HZ => "128"
  | _200_HZ => "200" | _250_HZ => "250" | _256_HZ => "256"
  | _500_HZ => "500" | _512_HZ => "512"
  end.

(** [digits] (bytes of the characters ['0'] to ['9']) is the decimal
    numeral of [n]: not empty, digits only, no leading zero except for
    the numeral ["0"], and of value [n] read in base ten. *)
Definition reads_as (digits : list Z) (n : Z) : bool :=
  match digits with
  | [] => false
  | d :: rest =>
      forallb (fun c => (48 <=? c) && (c <=? 57)) digits
      && (negb (d =? 48) || match rest with [] => true | _ => false end)
      && (fold_left (fun acc c => 10 * acc + (c - 48)) digits 0 =? n)
  end.

(** A byte sequence read as text, one character per byte (for bytes
    below 128 this is also what decoding it as UTF-8 gives). *)
Definition bytes_as_text (bs : list Z) : string :=
  string_of_list_ascii (map (fun b => ascii_of_N (Z.to_N b)) bs).

(** The two ways the module offers to construct a sensor. *)
Inductive Call : Type :=
| Construct (sensor_type sampling_rate : pyval)
| FromPath (path : string).

Definition call (c : Call) : M ClassState t :=
  match c with
  | Construct a b => __init__ a b
  | FromPath p => from_path p
  end.

(** Run the calls one after the other; an exception ends its own call
    only. *)
Fixpoint run (calls : list Call) (s : ClassState)
  : list (result t) * ClassState :=
  match calls with
  | [] => ([], s)
  | c :: rest =>
      let (r, s') := call c s in
      let (rs, s'') := run rest s' in
      (r :: rs, s'')
  end.

(** Ids of the sensors that were constructed, in construction order. *)
Fixpoint constructed_ids (outs : list (result t)) : list Z :=
  match outs with
  | [] => []
  | Ok x :: rest => id x :: constructed_ids rest
  | Raise _ :: rest => constructed_ids rest
  end.

Definition is_ok {A} (r : result A) : bool :=
  match r with Ok _ => true | Raise _ => false end.

(** The state [s] with [new] appended to the log of its sensor. *)
Definition appended (s : ObjState) (new : list Sample.t) : ObjState :=
  {| cls := cls s;
     self := {| sensor_type := sensor_type (self s);
                sampling_rate := sampling_rate (self s);
                id := id (self s);
                path := path (self s);
                data := data (self s) ++ new |} |}.

(** The sample built in the loop body for row [i]. *)
Definition sample_of (this : t) (now : Q) (device_address : string)
    (shape0 : nat) (p : nat * list Q) : Sample.t :=
  let T_s := (1 / inject_Z (value (sampling_rate this)))%Q in
  {| Sample.timestamp :=
       nth (fst p)
           (map (fun y => (y + now)%Q)
                (np.linspace (- T_s * inject_Z (Z.of_nat shape0))%Q 0%Q shape0))
           0%Q;
     Sample.device := device_address;
     Sample.sensor_type := value (sensor_type this);
     Sample.sensor_data := snd p |}.

(* ===================================================================== *)
(** ** Auxiliary definitions for the further properties *)
(* ===================================================================== *)

Fixpoint constructed (outs : list (result t)) : list t :=
  match outs with
  | [] => []
  | Ok x :: rest => x :: constructed rest
  | Raise _ :: rest => constructed rest
  end.

Definition constructed_paths (outs : list (result t)) : list (list Z) :=
  map path (constructed outs).

(** One delivery to the handler: arrival time, device address, buffer. *)
Record Notification : Type := {
  arrival : Q;
  address : string;
  payload : list Q
}.

(** Deliver the notifications one after the other to the same sensor;
    an exception ends its own call only. *)
Fixpoint deliver (ns : list Notification) (s : ObjState)
  : list (result unit) * ObjState :=
  match ns with
  | [] => ([], s)
  | n :: rest =>
      let (r, s') := notification_handler (arrival n) (address n) (payload n) s in
      let (rs, s'') := deliver rest s' in
      (r :: rs, s'')
  end.

(** Every logged sample carries the sensor's tag and one value per axis. *)
Definition log_well_formed (x : t) : Prop :=
  Forall (fun smp => Sample.sensor_type smp = value (sensor_type x) /\
                     Z.of_nat (length (Sample.sensor_data smp)) = axes (sensor_type x))
         (data x).

(** [true] when the text contains no ["/"]. *)
Definition no_slash (s : string) : bool :=
  forallb (fun c => negb (Ascii.eqb c "/")) (list_ascii_of_string s).

(** Value of a digit sequence read left to right from [acc]. *)
Fixpoint read_digits (acc : Z) (d : Decimal.uint) : Z :=
  match d with
  | Decimal.Nil => acc
  | Decimal.D0 d => read_digits (10 * acc + 0) d
  | Decimal.D1 d => read_digits (10 * acc + 1) d
  | Decimal.D2 d => read_digits (10 * acc + 2) d
  | Decimal.D3 d => read_digits (10 * acc + 3) d
  | Decimal.D4 d => read_digits (10 * acc + 4) d
  | Decimal.D5 d => read_digits (10 * acc + 5) d
  | Decimal.D6 d => read_digits (10 * acc + 6) d
  | Decimal.D7 d => read_digits (10 * acc + 7) d
  | Decimal.D8 d => read_digits (10 * acc + 8) d
  | Decimal.D9 d => read_digits (10 * acc + 9) d
  end.

Definition digits_text (d : Decimal.uint) : list ascii :=
  list_ascii_of_string (NilEmpty.string_of_uint d).

(* ===================================================================== *)
(** ** Catalog lookups *)
(* ===================================================================== *)

Section Catalogs.

Lemma find_agree {A} (f g : A -> bool) (l : list A) :
  (forall x, In x l -> f x = g x) -> find f l = find g l.
Proof.
  induction l as [|x l IH]; intros H; simpl; [reflexivity|].
  rewrite (H x (or_introl eq_refl)).
  destruct (g x); [reflexivity|].
  apply IH. intros y Hy. apply H. right. exact Hy.
Qed.

(** Away from the alias, the loop returns the first member whose tag
    equals the argument or is a prefix of it. *)
Lemma from_string_loop_find (ms : list MovesenseSensorType) (v : string) :
  v <> "IMU" ->
  from_string_loop ms v =
  find (fun k => String.eqb (value k) v || String.prefix (value k) v) ms.
Proof.
  intros Hv. induction ms as [|m ms IH]; simpl; [reflexivity|].
  unfold Py.startswith.
  destruct (String.eqb _ v); simpl; [reflexivity|].
  destruct (String.prefix _ v); [reflexivity|].
  destruct (String.eqb_spec v "IMU") as [E|_]; [contradiction|].
  exact IH.
Qed.

Lemma from_string_value (k : MovesenseSensorType) :
  from_string (PyStr (value k)) = Ok k.
Proof. destruct k; reflexivity. Qed.

Lemma lookup_by_tag_spec_value (k : MovesenseSensorType) :
  lookup_by_tag_spec (value k) = Ok k.
Proof. destruct k; reflexivity. Qed.

Lemma from_int_value (r : MovesenseSamplingRate) :
  from_int (PyInt (value r)) = Ok r.
Proof. destruct r; reflexivity. Qed.

Lemma find_eqb_value (tag : string) (k : MovesenseSensorType) :
  find (fun k => String.eqb (value k) tag) members = Some k ->
  tag = value k.
Proof.
  intros H. apply find_some in H. destruct H as [_ H].
  apply String.eqb_eq in H. symmetry. exact H.
Qed.

Lemma from_string_refines_spec (tag : string) :
  from_string (PyStr tag) = lookup_by_tag_spec tag.
Proof.
  destruct (find (fun k => String.eqb (value k) tag) members) as [k|] eqn:Heq.
  - apply find_eqb_value in Heq. subst tag.
    rewrite from_string_value, lookup_by_tag_spec_value. reflexivity.
  - destruct (String.eqb_spec tag "IMU") as [E|NE].
    + subst tag. reflexivity.
    + unfold from_string, lookup_by_tag_spec.
      rewrite Heq, (from_string_loop_find _ _ NE).
      rewrite (find_agree _ (fun k => String.prefix (value k) tag)).
      * destruct (find (fun k => String.prefix (value k) tag) members);
          [reflexivity|].
        destruct (String.eqb_spec tag "IMU"); [contradiction | reflexivity].
      * intros x Hx. rewrite (find_none _ _ Heq x Hx). reflexivity.
Qed.

End Catalogs.

(** C4: for every string [tag], [from_string] returns what the lookup
    worded as "first kind whose wire-tag equals [tag], else first kind
    whose wire-tag is a prefix of [tag], else IMU9 for the alias, else
    failure" returns; a failure is the [ValueError] standing for
    [UnknownSensorKind] and carries [tag]; and ["IMU"] resolves to
    [IMU9]. *)
Theorem from_string_lookup_by_tag :
  (forall tag, from_string (PyStr tag) = lookup_by_tag_spec tag) /\
  (forall tag e, from_string (PyStr tag) = Raise e ->
     e = ValueError (NoSensorTypeMember (PyStr tag)) /\
     error_kind e = Some UnknownSensorKind) /\
  from_string (PyStr "IMU") = Ok IMU9.
Proof.
  split; [exact from_string_refines_spec|]. split; [|reflexivity].
  intros tag e H. unfold from_string in H.
  destruct (from_string_loop members tag); [discriminate|].
  injection H as <-. split; reflexivity.
Qed.

Lemma from_string_lookup_by_tag_witness :
  from_string (PyStr "IM") = Raise (ValueError (NoSensorTypeMember (PyStr "IM"))) /\
  error_kind (ValueError (NoSensorTypeMember (PyStr "IM"))) = Some UnknownSensorKind.
Proof.
  split; [reflexivity|].
  exact (proj2 (proj1 (proj2 from_string_lookup_by_tag) "IM" _ eq_refl)).
Defined.

(** C8: looking up a kind's own wire-tag returns that kind, and looking
    up a rate's own numeric value returns that rate. *)
Theorem lookups_invert_value :
  (forall K : MovesenseSensorType, from_string (PyStr (value K)) = Ok K) /\
  (forall R : MovesenseSamplingRate, from_int (PyInt (value R)) = Ok R).
Proof. split; [exact from_string_value | exact from_int_value]. Qed.

(* ===================================================================== *)
(** ** Construction *)
(* ===================================================================== *)

Section Construction.

Lemma bytearray_id (n : Z) :
  Py.bytearray [1; n] =
  if (0 <=? n) && (n <? 256) then Ok [1; n]
  else Raise (ValueError ByteOutOfRange).
Proof.
  unfold Py.bytearray. simpl. rewrite andb_true_r. reflexivity.
Qed.

Lemma from_string_ok_str (a : pyval) (k : MovesenseSensorType) :
  from_string a = Ok k -> exists s, a = PyStr s.
Proof. destruct a; simpl; try discriminate. eauto. Qed.

Lemma from_int_ok_not_class (b : pyval) (r : MovesenseSamplingRate) :
  from_int b = Ok r -> b <> PyRateClass.
Proof. intros H ->. discriminate H. Qed.

(** Construction from arguments that the two lookups accept. *)
Lemma init_resolved (a b : pyval) k r (s : ClassState) :
  from_string a = Ok k -> from_int b = Ok r ->
  __init__ a b s =
  (if (0 <=? id_counter s) && (id_counter s <? 256)
   then Ok {| sensor_type := k; sampling_rate := r; id := id_counter s;
              path := [1; id_counter s] ++ Py.utf8 (path_text k r);
              data := [] |}
   else Raise (ValueError ByteOutOfRange),
   {| id_counter := id_counter s + 1 |}).
Proof.
  intros Ha Hb.
  destruct (from_string_ok_str _ _ Ha) as [tag ->].
  pose proof (from_int_ok_not_class _ _ Hb) as Hc.
  unfold __init__, bind, lift, get_id_counter, set_id_counter.
  rewrite Ha. cbn [map_result].
  destruct b; try contradiction; rewrite Hb, bytearray_id; simpl;
    destruct ((0 <=? id_counter s) && (id_counter s <? 256)); reflexivity.
Qed.

(** A lookup failure leaves the counter alone. *)
Lemma init_kind_fails (a b : pyval) e (s : ClassState) :
  a <> PyKindClass -> from_string a = Raise e ->
  __init__ a b s = (Raise e, s).
Proof.
  intros Hc Ha. unfold __init__, bind, lift.
  destruct a; try contradiction; rewrite Ha; reflexivity.
Qed.

Lemma init_rate_fails (a b : pyval) k e (s : ClassState) :
  from_string a = Ok k -> b <> PyRateClass -> from_int b = Raise e ->
  __init__ a b s = (Raise e, s).
Proof.
  intros Ha Hc Hb. destruct (from_string_ok_str _ _ Ha) as [tag ->].
  unfold __init__, bind, lift. rewrite Ha. simpl.
  destruct b; try contradiction; rewrite Hb; reflexivity.
Qed.

(** Every call either fails before line 79 and leaves the counter
    alone, or takes the current counter as id and increments it. *)
Lemma init_step (a b : pyval) (s : ClassState) :
  match __init__ a b s with
  | (Ok x, s') =>
      id x = id_counter s /\ id_counter s' = id_counter s + 1 /\
      0 <= id_counter s < 256
  | (Raise _, s') =>
      id_counter s' = id_counter s \/ id_counter s' = id_counter s + 1
  end.
Proof.
  unfold __init__, bind, lift, get_id_counter, set_id_counter.
  destruct (match a with PyKindClass => _ | _ => _ end) as [st|];
    [|left; reflexivity].
  destruct (match b with PyRateClass => _ | _ => _ end) as [sr|];
    [|left; reflexivity].
  rewrite bytearray_id.
  destruct ((0 <=? id_counter s) && (id_counter s <? 256)) eqn:E;
    [|right; reflexivity].
  destruct st, sr; simpl; try (right; reflexivity).
  repeat split; lia.
Qed.

Lemma from_path_step (p : string) (s : ClassState) :
  match from_path p s with
  | (Ok x, s') =>
      id x = id_counter s /\ id_counter s' = id_counter s + 1 /\
      0 <= id_counter s < 256
  | (Raise _, s') =>
      id_counter s' = id_counter s \/ id_counter s' = id_counter s + 1
  end.
Proof.
  unfold from_path.
  destruct (Py.split "/" p) as [|s1 [|s2 [|s3 [|s4 [|s5 l]]]]];
    try (left; reflexivity).
  destruct (Py.int s4); [apply init_step | left; reflexivity].
Qed.

End Construction.

Section Ids.

Lemma call_step (c : Call) (s : ClassState) :
  match call c s with
  | (Ok x, s') =>
      id x = id_counter s /\ id_counter s' = id_counter s + 1 /\
      0 <= id_counter s < 256
  | (Raise _, s') =>
      id_counter s' = id_counter s \/ id_counter s' = id_counter s + 1
  end.
Proof. destruct c; [apply init_step | apply from_path_step]. Qed.

(** From any counter value, the ids handed out lie between the counter
    before and the counter after, and increase strictly. *)
Lemma run_ids (calls : list Call) : forall s,
  id_counter s <= id_counter (snd (run calls s)) /\
  Forall (fun i => id_counter s <= i < id_counter (snd (run calls s)))
         (constructed_ids (fst (run calls s))) /\
  StronglySorted Z.lt (constructed_ids (fst (run calls s))).
Proof.
  induction calls as [|c calls IH]; intros s; simpl.
  - repeat split; [lia | constructor | constructor].
  - pose proof (call_step c s) as Hc.
    destruct (call c s) as [r s1].
    specialize (IH s1). destruct (run calls s1) as [rs s2]. simpl in *.
    destruct IH as (Hle & Hall & Hsorted).
    destruct r as [x|e]; simpl.
    + destruct Hc as (Hid & Hs1 & Hrange).
      split; [lia|]. split.
      * constructor; [lia|].
        eapply Forall_impl; [|exact Hall]. simpl. intros i Hi. lia.
      * constructor; [exact Hsorted|].
        eapply Forall_impl; [|exact Hall]. simpl. intros i Hi. lia.
    + split; [destruct Hc; lia|]. split; [|exact Hsorted].
      eapply Forall_impl; [|exact Hall]. simpl. intros i Hi.
      destruct Hc; lia.
Qed.

(** When no call fails, the ids count up from the counter. *)
Lemma run_all_ok (calls : list Call) : forall s,
  forallb is_ok (fst (run calls s)) = true ->
  constructed_ids (fst (run calls s)) =
  map (fun i => id_counter s + Z.of_nat i) (seq 0 (length calls)).
Proof.
  induction calls as [|c calls IH]; intros s; simpl; [reflexivity|].
  pose proof (call_step c s) as Hc.
  destruct (call c s) as [r s1].
  specialize (IH s1). destruct (run calls s1) as [rs s2]. simpl in *.
  destruct r as [x|e]; simpl; [|discriminate].
  intros Hok. destruct Hc as (Hid & Hs1 & _).
  rewrite (IH Hok), Hid, Z.add_0_r. f_equal.
  rewrite <- seq_shift, map_map. apply map_ext. intros i. lia.
Qed.

Lemma strictly_sorted_nodup (l : list Z) :
  StronglySorted Z.lt l -> NoDup l.
Proof.
  induction 1 as [|x l Hs IH Hx]; constructor; [|exact IH].
  intros Hin. rewrite Forall_forall in Hx. specialize (Hx x Hin). lia.
Qed.

End Ids.

(** C9: in a process that starts with the counter at 0, whatever
    sequence of constructor calls is made (direct or from a path), the
    ids of the sensors constructed increase strictly in construction
    order, are pairwise distinct and non-negative, and stay below the
    counter (so that no later sensor can receive one of them again);
    when every call succeeds they are exactly 0, 1, 2, ... *)
Theorem ids_strictly_increasing_from_zero (calls : list Call) :
  let outs := fst (run calls initial) in
  let final := snd (run calls initial) in
  StronglySorted Z.lt (constructed_ids outs) /\
  NoDup (constructed_ids outs) /\
  Forall (fun i => 0 <= i < id_counter final) (constructed_ids outs) /\
  (forallb is_ok outs = true ->
   constructed_ids outs = map Z.of_nat (seq 0 (length calls))).
Proof.
  simpl. destruct (run_ids calls initial) as (_ & Hall & Hsorted).
  split; [exact Hsorted|].
  split; [apply strictly_sorted_nodup; exact Hsorted|].
  split; [exact Hall|].
  intros Hok. rewrite (run_all_ok calls initial Hok). reflexivity.
Qed.

Lemma ids_strictly_increasing_from_zero_witness :
  constructed_ids
    (fst (run [Construct (PyStr "Acc") (PyInt 104);
               FromPath "/Meas/Gyro/208";
               Construct (PyStr "IMU") (PyInt 52)] initial)) = [0; 1; 2].
Proof.
  exact (proj2 (proj2 (proj2 (ids_strictly_increasing_from_zero
    [Construct (PyStr "Acc") (PyInt 104);
     FromPath "/Meas/Gyro/208";
     Construct (PyStr "IMU") (PyInt 52)]))) eq_refl).
Defined.

(** *** Catalog members as constructor arguments *)

(** C3, on the code: a member of either enumeration is not the
    enumeration class, so the identity test of lines 74 and 76 fails and
    the member is sent through the lookup for raw values: a kind member
    ends in [AttributeError] (it has no [startswith]), a rate member in
    the [ValueError] of [from_int] (no integer equals it).  No sensor is
    constructed and the counter is left alone.  The class objects, the
    only arguments that pass the identity test, construct no sensor
    either. *)
Theorem init_sends_members_through_lookup
    (K : MovesenseSensorType) (R : MovesenseSamplingRate) (s : ClassState) :
  __init__ (PyKind K) (PyRate R) s = (Raise AttributeError, s) /\
  __init__ (PyKind K) (PyInt (value R)) s = (Raise AttributeError, s) /\
  __init__ (PyStr (value K)) (PyRate R) s =
    (Raise (ValueError (NoSamplingRateMember (PyRate R))), s) /\
  is_ok (fst (__init__ PyKindClass (PyInt (value R)) s)) = false /\
  is_ok (fst (__init__ (PyStr (value K)) PyRateClass s)) = false.
Proof.
  split; [reflexivity|]. split; [reflexivity|]. split.
  - apply (init_rate_fails _ _ K); [apply from_string_value | discriminate |].
    destruct R; reflexivity.
  - unfold __init__, bind, lift, get_id_counter, set_id_counter.
    rewrite from_int_value, from_string_value, bytearray_id. simpl.
    destruct ((0 <=? id_counter s) && (id_counter s <? 256)); split; reflexivity.
Qed.

(** *** The subscription path *)

Section PathBytes.

Lemma path_text_utf8 (K : MovesenseSensorType) (R : MovesenseSamplingRate) :
  Py.utf8 (path_text K R) = char_codes (path_text K R).
Proof. destruct K, R; reflexivity. Qed.

Lemma in_range_true (n : Z) :
  0 <= n <= 255 -> (0 <=? n) && (n <? 256) = true.
Proof. intros H. apply andb_true_intro. split; [apply Z.leb_le | apply Z.ltb_lt]; lia. Qed.

Lemma in_range_false (n : Z) :
  255 < n -> (0 <=? n) && (n <? 256) = false.
Proof.
  intros H. apply andb_false_intro2. apply Z.ltb_ge. lia.
Qed.

End PathBytes.

(** C7: when the arguments resolve to kind [K] and rate [R], a
    construction that takes an id in [0, 255] from the counter stores as
    path exactly the byte [1], the id byte, and then, one byte per
    character, ["/Meas/"], the kind's tag, ["/"] and the decimal numeral
    of the rate's value (all of them ASCII); with the counter above 255
    the construction fails with the [ValueError] that stands for
    [IdOutOfRange]. *)
Theorem path_is_marker_id_text
    (a b : pyval) (K : MovesenseSensorType) (R : MovesenseSamplingRate)
    (s : ClassState) :
  from_string a = Ok K -> from_int b = Ok R ->
  (0 <= id_counter s <= 255 ->
   exists x, fst (__init__ a b s) = Ok x /\
     id x = id_counter s /\
     path x = 1 :: id_counter s ::
              ascii_bytes "/Meas/" ++ ascii_bytes (value K) ++
              ascii_bytes "/" ++ ascii_bytes (rate_numeral R) /\
     reads_as (ascii_bytes (rate_numeral R)) (value R) = true /\
     Forall (fun c => 0 <= c < 128) (skipn 2 (path x))) /\
  (255 < id_counter s ->
   fst (__init__ a b s) = Raise (ValueError ByteOutOfRange) /\
   error_kind (ValueError ByteOutOfRange) = Some IdOutOfRange).
Proof.
  intros Ha Hb. rewrite (init_resolved a b K R s Ha Hb). split; intros Hid.
  - rewrite (in_range_true _ Hid). eexists. split; [reflexivity|].
    cbn [fst id path]. split; [reflexivity|]. split; [|split].
    + destruct K, R; reflexivity.
    + destruct R; reflexivity.
    + destruct K, R; vm_compute; repeat constructor; discriminate.
  - rewrite (in_range_false _ Hid). split; reflexivity.
Qed.

Lemma path_is_marker_id_text_witness :
  (exists x, fst (__init__ (PyStr "Acc") (PyInt 104) {| id_counter := 5 |}) = Ok x /\
     id x = 5 /\
     path x = [1; 5; 47; 77; 101; 97; 115; 47; 65; 99; 99; 47; 49; 48; 52] /\
     reads_as [49; 48; 52] 104 = true /\
     Forall (fun c => 0 <= c < 128) (skipn 2 (path x))) /\
  (exists x, fst (__init__ (PyStr "HR") (PyFloat 13) {| id_counter := 255 |}) = Ok x /\
     id x = 255 /\
     path x = [1; 255; 47; 77; 101; 97; 115; 47; 72; 82; 47; 49; 51] /\
     reads_as [49; 51] 13 = true /\
     Forall (fun c => 0 <= c < 128) (skipn 2 (path x))) /\
  fst (__init__ (PyStr "Acc") (PyInt 104) {| id_counter := 256 |}) =
    Raise (ValueError ByteOutOfRange).
Proof.
  split; [|split].
  - apply (proj1 (path_is_marker_id_text (PyStr "Acc") (PyInt 104)
                    ACCELEROMETER _104_HZ {| id_counter := 5 |}
                    eq_refl eq_refl)).
    simpl. lia.
  - apply (proj1 (path_is_marker_id_text (PyStr "HR") (PyFloat 13)
                    HEART_RATE _13_HZ {| id_counter := 255 |}
                    eq_refl eq_refl)).
    simpl. lia.
  - apply (proj2 (path_is_marker_id_text (PyStr "Acc") (PyInt 104)
                    ACCELEROMETER _104_HZ {| id_counter := 256 |}
                    eq_refl eq_refl)).
    simpl. lia.
Defined.

(* ===================================================================== *)
(** ** Decoding a path *)
(* ===================================================================== *)

Section FromPath.

(** A constructed sensor's path is the two-byte prefix followed by the
    UTF-8 bytes of the text for its own kind and rate. *)
Lemma init_ok_path (a b : pyval) (s s' : ClassState) (y : t) :
  __init__ a b s = (Ok y, s') ->
  path y = [1; id y] ++
           Py.utf8 (path_text (sensor_type y) (sampling_rate y)).
Proof.
  unfold __init__, bind, lift, get_id_counter, set_id_counter.
  destruct (match a with PyKindClass => _ | _ => _ end) as [st|];
    [|discriminate].
  destruct (match b with PyRateClass => _ | _ => _ end) as [sr|];
    [|discriminate].
  rewrite bytearray_id.
  destruct ((0 <=? id_counter s) && (id_counter s <? 256));
    [|discriminate].
  destruct st, sr; simpl; try discriminate.
  intros H. injection H as <- _. reflexivity.
Qed.

Lemma from_path_wrong_count (p : string) (s : ClassState) :
  length (Py.split "/" p) <> 4%nat ->
  from_path p s =
  (Raise (ValueError (UnpackMismatch (length (Py.split "/" p)))), s).
Proof.
  unfold from_path.
  destruct (Py.split "/" p) as [|s1 [|s2 [|s3 [|s4 [|s5 l]]]]];
    simpl; intros H; try reflexivity.
  contradiction.
Qed.

Lemma from_path_four (p s1 s2 tag rate : string) (s : ClassState) :
  Py.split "/" p = [s1; s2; tag; rate] ->
  from_path p s =
  match Py.int rate with
  | Some n => __init__ (PyStr tag) (PyInt n) s
  | None => (Raise (ValueError (InvalidIntLiteral rate)), s)
  end.
Proof.
  unfold from_path. intros ->. destruct (Py.int rate); reflexivity.
Qed.

Lemma split_path_text (K : MovesenseSensorType) (R : MovesenseSamplingRate) :
  Py.split "/" (path_text K R) = [""; "Meas"; value K; Py.str (value R)] /\
  Py.int (Py.str (value R)) = Some (value R).
Proof. destruct K, R; split; reflexivity. Qed.

(** Decoding the text for [K] and [R] while the counter still fits a
    byte. *)
Lemma from_path_path_text K R (s : ClassState) :
  0 <= id_counter s <= 255 ->
  exists x, from_path (path_text K R) s =
              (Ok x, {| id_counter := id_counter s + 1 |}) /\
            sensor_type x = K /\ sampling_rate x = R.
Proof.
  intros Hid. destruct (split_path_text K R) as [Hsplit Hint].
  rewrite (from_path_four _ _ _ _ _ s Hsplit), Hint.
  rewrite (init_resolved _ _ K R s (from_string_value K) (from_int_value R)).
  rewrite (in_range_true _ Hid). eexists. split; [reflexivity|].
  split; reflexivity.
Qed.

Lemma chr_ord (i : Z) :
  0 <= i < 256 -> Py.ord (ascii_of_N (Z.to_N i)) = i.
Proof.
  intros Hi. unfold Py.ord. rewrite N_ascii_embedding by lia. lia.
Qed.

Lemma chr_slash (i : Z) :
  0 <= i < 256 -> Ascii.eqb (ascii_of_N (Z.to_N i)) "/" = (i =? 47).
Proof.
  intros Hi. destruct (Z.eqb_spec i 47) as [->|Hne]; [reflexivity|].
  apply Ascii.eqb_neq. intros H. apply (f_equal Py.ord) in H.
  rewrite (chr_ord i Hi) in H. apply Hne. exact H.
Qed.

Lemma bytes_as_text_char_codes (t : string) :
  bytes_as_text (char_codes t) = t.
Proof.
  unfold bytes_as_text, char_codes, Py.ord. rewrite map_map.
  rewrite (map_ext _ (fun c => c)), map_id.
  - apply string_of_list_ascii_of_string.
  - intros c. rewrite N2Z.id. apply ascii_N_embedding.
Qed.

(** Shape of a constructed sensor's path and its reading as text. *)
Lemma constructed_path_text (a b : pyval) (s0 s1 : ClassState) (y : t) :
  __init__ a b s0 = (Ok y, s1) ->
  0 <= id y < 256 /\
  bytes_as_text (path y) =
  String (ascii_of_N 1)
    (String (ascii_of_N (Z.to_N (id y)))
       (path_text (sensor_type y) (sampling_rate y))).
Proof.
  intros Hy. split.
  - pose proof (init_step a b s0) as Hstep. rewrite Hy in Hstep. lia.
  - rewrite (init_ok_path a b s0 s1 y Hy), path_text_utf8.
    change (bytes_as_text ([1; id y] ++ ?l))
      with (String (ascii_of_N 1)
              (String (ascii_of_N (Z.to_N (id y))) (bytes_as_text l))).
    rewrite bytes_as_text_char_codes. reflexivity.
Qed.

(** Decoding a path text behind a two-character prefix: the prefix is
    dropped with the first segment, unless its second character is the
    separator. *)
Lemma from_path_behind_prefix K R (i : Z) (s : ClassState) :
  0 <= i < 256 ->
  from_path (String (ascii_of_N 1)
               (String (ascii_of_N (Z.to_N i)) (path_text K R))) s =
  if i =? 47 then (Raise (ValueError (UnpackMismatch 5)), s)
  else from_path (path_text K R) s.
Proof.
  intros Hi. unfold from_path. cbn [Py.split].
  change (Ascii.eqb (ascii_of_N 1) "/") with false. cbv iota.
  rewrite (chr_slash i Hi), (proj1 (split_path_text K R)).
  destruct (i =? 47); reflexivity.
Qed.

End FromPath.

(** C5 as worded fails in two states a process reaches.  The sensor
    with id 47 has the byte of ["/"] in its path prefix: its encoded
    path read as text has five segments and [from_path] raises.  And
    once 256 sensors have been constructed the decoded sensor's fresh
    id does not fit the id byte of its own path, so that
    [from_path "/Meas/Gyro/208"] raises instead of yielding
    (Gyroscope, 208). *)
Lemma from_path_roundtrip_fails :
  (let (outs, s) := run (repeat (Construct (PyStr "Gyro") (PyInt 208)) 48) initial in
   match last outs (Raise AttributeError) with
   | Ok y =>
       id y = 47 /\ sensor_type y = GYROSCOPE /\ sampling_rate y = _208_HZ /\
       id_counter s = 48 /\
       fst (from_path (bytes_as_text (path y)) s) =
         Raise (ValueError (UnpackMismatch 5))
   | Raise _ => False
   end) /\
  (let s := snd (run (repeat (Construct (PyStr "Acc") (PyInt 13)) 256) initial) in
   id_counter s = 256 /\
   fst (from_path "/Meas/Gyro/208" s) = Raise (ValueError ByteOutOfRange)) /\
  ~ (forall a b s0 s1 y s, __init__ a b s0 = (Ok y, s1) ->
       exists x, fst (from_path (bytes_as_text (path y)) s) = Ok x /\
                 sensor_type x = sensor_type y /\
                 sampling_rate x = sampling_rate y) /\
  ~ (forall (s : ClassState) K R,
       exists x, fst (from_path (path_text K R) s) = Ok x /\
                 sensor_type x = K /\ sampling_rate x = R).
Proof.
  split; [vm_compute; repeat split; reflexivity|].
  split; [vm_compute; split; reflexivity|].
  split.
  - intros H.
    destruct (H (PyStr "Gyro") (PyInt 208) {| id_counter := 47 |} _ _
                {| id_counter := 48 |} eq_refl) as (x & Hx & _).
    vm_compute in Hx. discriminate.
  - intros H.
    destruct (H {| id_counter := 256 |} GYROSCOPE _208_HZ) as (x & Hx & _).
    vm_compute in Hx. discriminate.
Qed.

(** C5, amended: [from_path] splits the text on "/"; a segment count
    other than four, or a rate segment that [int] rejects, is the
    [ValueError] standing for [MalformedPath]; otherwise the tag and the
    integer go through the two catalog lookups, whose failures
    propagate.  Composed with encoding: for the path of any constructed
    sensor, read as text, [from_path] gives back that sensor's kind and
    rate provided the id byte in the path is not 47 (the separator) and
    the id counter is at most 255 when decoding; with the id byte 47 it
    fails with five segments; the text behind the two-byte prefix alone
    decodes to the sensor's kind and rate for every id byte.
    ["/Meas/Gyro/208"] gives (GYROSCOPE, 208) while the counter is at
    most 255, and ["/Meas/Gyro/999"] fails with the [ValueError]
    standing for [UnknownSamplingRate]. *)
Theorem from_path_decodes (p : string) (s : ClassState) :
  (length (Py.split "/" p) <> 4%nat ->
   exists e, from_path p s = (Raise e, s) /\
             error_kind e = Some MalformedPath) /\
  (forall s1 s2 tag rate, Py.split "/" p = [s1; s2; tag; rate] ->
     (Py.int rate = None ->
      exists e, from_path p s = (Raise e, s) /\
                error_kind e = Some MalformedPath) /\
     (forall n, Py.int rate = Some n ->
        (forall e, from_string (PyStr tag) = Raise e ->
           from_path p s = (Raise e, s) /\
           error_kind e = Some UnknownSensorKind) /\
        (forall K e, from_string (PyStr tag) = Ok K ->
           from_int (PyInt n) = Raise e ->
           from_path p s = (Raise e, s) /\
           error_kind e = Some UnknownSamplingRate) /\
        (forall K R, from_string (PyStr tag) = Ok K ->
           from_int (PyInt n) = Ok R ->
           0 <= id_counter s <= 255 ->
           exists x, from_path p s =
                       (Ok x, {| id_counter := id_counter s + 1 |}) /\
                     sensor_type x = K /\ sampling_rate x = R))) /\
  (forall a b s0 s1 y, __init__ a b s0 = (Ok y, s1) ->
     (id y <> 47 -> 0 <= id_counter s <= 255 ->
      exists x,
        from_path (bytes_as_text (path y)) s =
          (Ok x, {| id_counter := id_counter s + 1 |}) /\
        sensor_type x = sensor_type y /\
        sampling_rate x = sampling_rate y) /\
     (id y = 47 ->
      exists e, from_path (bytes_as_text (path y)) s = (Raise e, s) /\
                e = ValueError (UnpackMismatch 5) /\
                error_kind e = Some MalformedPath) /\
     (id y < 128 -> Py.utf8 (bytes_as_text (path y)) = path y) /\
     (0 <= id_counter s <= 255 ->
      exists text x,
        path y = [1; id y] ++ Py.utf8 text /\
        fst (from_path text s) = Ok x /\
        sensor_type x = sensor_type y /\
        sampling_rate x = sampling_rate y)) /\
  (0 <= id_counter s <= 255 ->
   exists x, fst (from_path "/Meas/Gyro/208" s) = Ok x /\
             sensor_type x = GYROSCOPE /\ sampling_rate x = _208_HZ) /\
  (exists e, fst (from_path "/Meas/Gyro/999" s) = Raise e /\
             error_kind e = Some UnknownSamplingRate).
Proof.
  split; [|split; [|split; [|split]]].
  - intros H. rewrite (from_path_wrong_count p s H). eexists.
    split; reflexivity.
  - intros s1 s2 tag rate Hsplit.
    rewrite (from_path_four p s1 s2 tag rate s Hsplit). split.
    + intros ->. eexists. split; reflexivity.
    + intros n ->. split; [|split].
      * intros e He. rewrite (init_kind_fails _ _ e s); [|discriminate|exact He].
        split; [reflexivity|].
        unfold from_string in He.
        destruct (from_string_loop members tag); [discriminate|].
        injection He as <-. reflexivity.
      * intros K e HK He.
        rewrite (init_rate_fails _ _ K e s HK); [|discriminate|exact He].
        split; [reflexivity|].
        unfold from_int in He.
        destruct (from_int_loop members (PyInt n)); [discriminate|].
        injection He as <-. reflexivity.
      * intros K R HK HR Hid. rewrite (init_resolved _ _ K R s HK HR).
        rewrite (in_range_true _ Hid). eexists. split; [reflexivity|].
        split; reflexivity.
  - intros a b s0 s1 y Hy.
    destruct (constructed_path_text a b s0 s1 y Hy) as [Hrange Htext].
    pose proof (from_path_behind_prefix (sensor_type y) (sampling_rate y)
                  (id y) s Hrange) as Hdec.
    rewrite <- Htext in Hdec.
    split; [|split; [|split]].
    + intros Hne Hid. rewrite Hdec.
      destruct (Z.eqb_spec (id y) 47) as [E|_]; [contradiction|].
      exact (from_path_path_text (sensor_type y) (sampling_rate y) s Hid).
    + intros E. rewrite Hdec, E. eexists.
      split; [reflexivity|]. split; reflexivity.
    + intros Hsmall. rewrite Htext.
      rewrite (init_ok_path a b s0 s1 y Hy).
      unfold Py.utf8. cbn [list_ascii_of_string flat_map].
      unfold Py.utf8_char at 1 2.
      rewrite (chr_ord (id y) Hrange).
      change (Py.ord (ascii_of_N 1)) with 1.
      destruct (Z.ltb_spec (id y) 128) as [_|Hge]; [reflexivity | lia].
    + intros Hid.
      destruct (from_path_path_text (sensor_type y) (sampling_rate y) s Hid)
        as (x & Hx & HK & HR).
      exists (path_text (sensor_type y) (sampling_rate y)), x.
      split; [exact (init_ok_path a b s0 s1 y Hy)|].
      rewrite Hx. split; [reflexivity|]. split; assumption.
  - intros Hid.
    destruct (from_path_path_text GYROSCOPE _208_HZ s Hid) as (x & Hx & HK & HR).
    exists x. change "/Meas/Gyro/208" with (path_text GYROSCOPE _208_HZ).
    rewrite Hx. split; [reflexivity|]. split; assumption.
  - eexists. split; reflexivity.
Qed.

Lemma from_path_decodes_witness :
  (exists e, from_path "/Meas/Gyro" initial = (Raise e, initial) /\
             error_kind e = Some MalformedPath) /\
  (exists e, from_path "/Meas/Gyro/2o8" initial = (Raise e, initial) /\
             error_kind e = Some MalformedPath) /\
  (exists x, from_path "/Meas/Gyro/208" {| id_counter := 7 |} =
               (Ok x, {| id_counter := 8 |}) /\
             sensor_type x = GYROSCOPE /\ sampling_rate x = _208_HZ) /\
  (let y := {| sensor_type := GYROSCOPE; sampling_rate := _208_HZ; id := 200;
               path := [1; 200; 47; 77; 101; 97; 115; 47; 71; 121; 114; 111;
                        47; 50; 48; 56];
               data := [] |} in
   __init__ (PyStr "Gyro") (PyInt 208) {| id_counter := 200 |}
     = (Ok y, {| id_counter := 201 |}) /\
   exists x, from_path (bytes_as_text (path y)) {| id_counter := 201 |} =
               (Ok x, {| id_counter := 202 |}) /\
             sensor_type x = GYROSCOPE /\ sampling_rate x = _208_HZ).
Proof.
  split; [|split; [|split]].
  - apply (proj1 (from_path_decodes "/Meas/Gyro" initial)).
    simpl. discriminate.
  - exact (proj1 (proj1 (proj2 (from_path_decodes "/Meas/Gyro/2o8" initial))
                    "" "Meas" "Gyro" "2o8" eq_refl) eq_refl).
  - apply (proj2 (proj2 (proj2 (proj1 (proj2
             (from_path_decodes "/Meas/Gyro/208" {| id_counter := 7 |}))
             "" "Meas" "Gyro" "208" eq_refl) 208 eq_refl))
             GYROSCOPE _208_HZ eq_refl eq_refl).
    simpl. lia.
  - intros y. split; [reflexivity|].
    apply (proj1 (proj1 (proj2 (proj2
             (from_path_decodes "" {| id_counter := 201 |})))
             (PyStr "Gyro") (PyInt 208) {| id_counter := 200 |}
             {| id_counter := 201 |} y eq_refl)).
    + simpl. discriminate.
    + simpl. lia.
Defined.

(* ===================================================================== *)
(** ** Decoding a notification *)
(* ===================================================================== *)

Section Decoder.

Lemma appended_nil (s : ObjState) : appended s [] = s.
Proof.
  destruct s as [c [k r i p d]]. unfold appended. simpl.
  rewrite app_nil_r. reflexivity.
Qed.

Lemma appended_appended (s : ObjState) (l1 l2 : list Sample.t) :
  appended (appended s l1) l2 = appended s (l1 ++ l2).
Proof. unfold appended. simpl. rewrite app_assoc. reflexivity. Qed.

(** A loop whose body appends one sample per element appends the
    samples of all elements, in order. *)
Lemma for_each_appends {A} (f : A -> Sample.t) (body : A -> M ObjState unit)
    (xs : list A) :
  (forall x s, body x s = (Ok tt, appended s [f x])) ->
  forall s, for_each xs body s = (Ok tt, appended s (map f xs)).
Proof.
  intros Hbody. induction xs as [|x xs IH]; intros s; simpl.
  - unfold ret. rewrite appended_nil. reflexivity.
  - unfold bind. rewrite Hbody, IH, appended_appended. reflexivity.
Qed.

Lemma handler_reshaped (now : Q) (dev : string) (buffer : list Q)
    (s : ObjState) (rows : list (list Q)) :
  np.reshape buffer (axes (sensor_type (self s))) = Ok rows ->
  notification_handler now dev buffer s =
  (Ok tt,
   appended s (map (sample_of (self s) now dev (length rows))
                   (enumerate rows))).
Proof.
  intros Hr. unfold notification_handler, bind, get_self, lift.
  rewrite Hr.
  apply (for_each_appends (sample_of (self s) now dev (length rows))).
  intros [i row] s'. reflexivity.
Qed.

Lemma handler_not_reshaped (now : Q) (dev : string) (buffer : list Q)
    (s : ObjState) (e : PyExn) :
  np.reshape buffer (axes (sensor_type (self s))) = Raise e ->
  notification_handler now dev buffer s = (Raise e, s).
Proof.
  intros Hr. unfold notification_handler, bind, get_self, lift.
  rewrite Hr. reflexivity.
Qed.

Lemma axes_pos (K : MovesenseSensorType) : 0 < axes K.
Proof. destruct K; reflexivity. Qed.

Lemma reshape_multiple (buffer : list Q) (K : MovesenseSensorType) (k : nat) :
  length buffer = (k * Z.to_nat (axes K))%nat ->
  np.reshape buffer (axes K) = Ok (np.rows k (Z.to_nat (axes K)) buffer).
Proof.
  intros Hlen. pose proof (axes_pos K) as Hpos. unfold np.reshape.
  assert (Hz : Z.of_nat (length buffer) = Z.of_nat k * axes K)
    by (rewrite Hlen; lia).
  rewrite Hz, Z.mod_mul, Z.div_mul by lia.
  destruct (Z.leb_spec (axes K) 0); [lia|]. simpl.
  rewrite Nat2Z.id. reflexivity.
Qed.

Lemma reshape_not_multiple (buffer : list Q) (K : MovesenseSensorType) :
  Z.of_nat (length buffer) mod axes K <> 0 ->
  np.reshape buffer (axes K) =
  Raise (ValueError (CannotReshape (length buffer) (axes K))).
Proof.
  intros Hmod. unfold np.reshape.
  destruct (Z.eqb_spec (Z.of_nat (length buffer) mod axes K) 0);
    [contradiction|].
  rewrite orb_true_r. reflexivity.
Qed.

Lemma rows_length (n c : nat) : forall l, length (np.rows n c l) = n.
Proof. induction n as [|n IH]; intros l; simpl; [|rewrite IH]; reflexivity. Qed.

(** Row [i] is the [i]-th block of [c] consecutive values. *)
Lemma rows_nth (n c : nat) : forall (l : list Q) (i : nat),
  (i < n)%nat ->
  nth_error (np.rows n c l) i = Some (firstn c (skipn (i * c) l)).
Proof.
  induction n as [|n IH]; intros l i Hi; [lia|].
  destruct i as [|i]; simpl; [reflexivity|].
  rewrite IH by lia. rewrite skipn_skipn. do 3 f_equal. lia.
Qed.

Lemma combine_seq_nth {A} (xs : list A) : forall (start i : nat) (x : A),
  nth_error xs i = Some x ->
  nth_error (combine (seq start (length xs)) xs) i = Some ((start + i)%nat, x).
Proof.
  induction xs as [|y xs IH]; intros start i x H.
  - destruct i; discriminate.
  - destruct i as [|i]; simpl in *.
    + injection H as ->. rewrite Nat.add_0_r. reflexivity.
    + rewrite (IH (S start) i x H). do 2 f_equal. lia.
Qed.

Lemma enumerate_nth {A} (xs : list A) (i : nat) (x : A) :
  nth_error xs i = Some x -> nth_error (enumerate xs) i = Some (i, x).
Proof. intros H. exact (combine_seq_nth xs 0 i x H). Qed.

Lemma enumerate_length {A} (xs : list A) : length (enumerate xs) = length xs.
Proof.
  unfold enumerate. rewrite length_combine, length_seq. apply Nat.min_id.
Qed.

End Decoder.

(** C2: for a buffer of [k] times the axis count, one call succeeds and
    appends exactly [k] samples to the log; the [i]-th appended sample
    holds the [i]-th block of axis-count consecutive buffer values in
    their original order, the caller's device address, and the kind's
    [value] as its sensor tag. *)
Theorem handler_appends_rows (now : Q) (dev : string) (buffer : list Q)
    (s : ObjState) (k : nat) :
  let K := sensor_type (self s) in
  let c := Z.to_nat (axes K) in
  length buffer = (k * c)%nat ->
  exists new,
    notification_handler now dev buffer s = (Ok tt, appended s new) /\
    data (self (appended s new)) = data (self s) ++ new /\
    length new = k /\
    forall i, (i < k)%nat ->
      exists smp, nth_error new i = Some smp /\
        Sample.sensor_data smp = firstn c (skipn (i * c) buffer) /\
        length (Sample.sensor_data smp) = c /\
        (forall j, (j < c)%nat ->
           nth_error (Sample.sensor_data smp) j = nth_error buffer (i * c + j)) /\
        Sample.device smp = dev /\
        Sample.sensor_type smp = value K.
Proof.
  intros K c Hlen.
  pose proof (reshape_multiple buffer K k Hlen) as Hr. fold c in Hr.
  rewrite (handler_reshaped now dev buffer s _ Hr).
  eexists. split; [reflexivity|]. split; [reflexivity|].
  split; [rewrite length_map, enumerate_length; apply rows_length|].
  intros i Hi.
  pose proof (rows_nth k c buffer i Hi) as Hrow.
  apply enumerate_nth in Hrow.
  eexists. split.
  - apply map_nth_error. exact Hrow.
  - simpl. split; [reflexivity|]. split.
    + rewrite length_firstn, length_skipn, Hlen. nia.
    + split; [|split; reflexivity].
      intros j Hj. rewrite nth_error_firstn, nth_error_skipn.
      destruct (Nat.ltb_spec j c); [reflexivity | lia].
Qed.

Lemma handler_appends_rows_witness :
  let s := {| cls := initial;
              self := {| sensor_type := ACCELEROMETER;
                         sampling_rate := _104_HZ;
                         id := 0;
                         path := [1; 0];
                         data := [] |} |} in
  exists s1 s2,
    data (self (snd (notification_handler 1000 "6C:EC" [1; 2; 3; 4; 5; 6]%Q s)))
      = [s1; s2] /\
    Sample.sensor_data s1 = [1; 2; 3]%Q /\ Sample.sensor_data s2 = [4; 5; 6]%Q /\
    Sample.sensor_type s1 = "Acc" /\ Sample.sensor_type s2 = "Acc" /\
    Sample.device s1 = "6C:EC" /\ Sample.device s2 = "6C:EC".
Proof.
  intros s.
  destruct (handler_appends_rows 1000 "6C:EC" [1; 2; 3; 4; 5; 6]%Q s 2 eq_refl)
    as (new & Hrun & _ & Hlen & Hrows).
  rewrite Hrun.
  destruct new as [|s1 [|s2 [|s3 new]]]; try discriminate.
  exists s1, s2. split; [reflexivity|].
  destruct (Hrows 0%nat ltac:(lia)) as (x1 & E1 & D1 & _ & _ & A1 & T1).
  destruct (Hrows 1%nat ltac:(lia)) as (x2 & E2 & D2 & _ & _ & A2 & T2).
  injection E1 as <-. injection E2 as <-.
  repeat split; assumption.
Defined.

(** C6: a buffer whose length the axis count does not divide makes the
    call fail with the [ValueError] that stands for [MalformedBuffer],
    in an unchanged state; and whatever the buffer, a call leaves the
    class counter and the sensor's kind, rate, id and path as they were
    and turns the log into the old log followed by the new samples. *)
Theorem handler_fails_clean_and_only_appends (now : Q) (dev : string)
    (buffer : list Q) (s : ObjState) :
  (Z.of_nat (length buffer) mod axes (sensor_type (self s)) <> 0 ->
   exists e, notification_handler now dev buffer s = (Raise e, s) /\
             error_kind e = Some MalformedBuffer) /\
  (let s' := snd (notification_handler now dev buffer s) in
   cls s' = cls s /\
   sensor_type (self s') = sensor_type (self s) /\
   sampling_rate (self s') = sampling_rate (self s) /\
   id (self s') = id (self s) /\
   path (self s') = path (self s) /\
   exists new, data (self s') = data (self s) ++ new).
Proof.
  split.
  - intros Hmod.
    rewrite (handler_not_reshaped now dev buffer s _
               (reshape_not_multiple buffer _ Hmod)).
    eexists. split; reflexivity.
  - destruct (np.reshape buffer (axes (sensor_type (self s)))) as [rows|e] eqn:Hr.
    + rewrite (handler_reshaped now dev buffer s rows Hr). simpl.
      repeat split. eexists. reflexivity.
    + rewrite (handler_not_reshaped now dev buffer s e Hr). simpl.
      repeat split. exists []. rewrite app_nil_r. reflexivity.
Qed.

Lemma handler_fails_clean_and_only_appends_witness :
  let s := {| cls := initial;
              self := {| sensor_type := ACCELEROMETER;
                         sampling_rate := _104_HZ;
                         id := 0;
                         path := [1; 0];
                         data := [] |} |} in
  exists e, notification_handler 1000 "6C:EC" [1; 2; 3; 4]%Q s = (Raise e, s) /\
            error_kind e = Some MalformedBuffer.
Proof.
  intros s.
  apply (proj1 (handler_fails_clean_and_only_appends 1000 "6C:EC"
                  [1; 2; 3; 4]%Q s)).
  simpl. discriminate.
Defined.

(** C10: a buffer of exactly one row (as many values as the kind has
    axes) appends a single sample, stamped one sampling period before
    the arrival time, [now - 1 / rate], which is not the arrival time
    itself. *)
Theorem single_row_timestamp (now : Q) (dev : string) (buffer : list Q)
    (s : ObjState) :
  length buffer = Z.to_nat (axes (sensor_type (self s))) ->
  exists smp,
    notification_handler now dev buffer s = (Ok tt, appended s [smp]) /\
    Sample.sensor_data smp = buffer /\
    (Sample.timestamp smp ==
     now - 1 / inject_Z (value (sampling_rate (self s))))%Q /\
    ~ (Sample.timestamp smp == now)%Q.
Proof.
  intros Hlen.
  assert (Hk : length buffer = (1 * Z.to_nat (axes (sensor_type (self s))))%nat)
    by lia.
  rewrite (handler_reshaped now dev buffer s _ (reshape_multiple buffer _ 1 Hk)).
  eexists. split; [reflexivity|]. simpl. split; [|split].
  - rewrite <- Hlen. apply firstn_all.
  - ring.
  - intros H.
    match type of H with
    | (?x + now == now)%Q =>
        assert (Hz : (x == 0)%Q)
          by (setoid_replace x with (x + now - now)%Q by ring; rewrite H; ring)
    end.
    destruct (sampling_rate (self s)); discriminate Hz.
Qed.

Lemma single_row_timestamp_witness :
  let s := {| cls := initial;
              self := {| sensor_type := TEMPERATURE;
                         sampling_rate := _13_HZ;
                         id := 0;
                         path := [1; 0];
                         data := [] |} |} in
  exists smp,
    notification_handler 1000 "6C:EC" [36.5]%Q s = (Ok tt, appended s [smp]) /\
    Sample.sensor_data smp = [36.5]%Q /\
    (Sample.timestamp smp == 1000 - 1 / 13)%Q /\
    ~ (Sample.timestamp smp == 1000)%Q.
Proof.
  intros s. exact (single_row_timestamp 1000 "6C:EC" [36.5]%Q s eq_refl).
Defined.

Section Timestamps.

(** [linspace] with at least two points: entry [i] lies [i] steps of
    [(stop - start) / div] after [start]. *)
Lemma linspace_nth (start stop : Q) (div i : nat) :
  (1 <= div)%nat -> (i <= div)%nat ->
  exists y, nth_error (np.linspace start stop (S div)) i = Some y /\
            (y == start + inject_Z (Z.of_nat i) *
                         ((stop - start) / inject_Z (Z.of_nat div)))%Q.
Proof.
  intros Hdiv Hi.
  assert (Hnz : ~ (inject_Z (Z.of_nat div) == 0)%Q).
  { change 0%Q with (inject_Z 0). rewrite inject_Z_injective. lia. }
  destruct div as [|d]; [lia|].
  unfold np.linspace.
  destruct (Nat.eq_dec i (S d)) as [->|Hne].
  - exists stop. split.
    + rewrite nth_error_app2; rewrite length_map, length_seq; [|lia].
      rewrite Nat.sub_diag. reflexivity.
    + field. exact Hnz.
  - eexists. split.
    + rewrite nth_error_app1 by (rewrite length_map, length_seq; lia).
      apply map_nth_error. rewrite nth_error_seq.
      destruct (Nat.ltb_spec i (S d)); [reflexivity | lia].
    + simpl Nat.add. ring.
Qed.

(** The timestamp the loop body gives row [i] of [S div] rows. *)
Lemma sample_of_timestamp (this : t) (now : Q) (dev : string)
    (div i : nat) (row : list Q) :
  (1 <= div)%nat -> (i <= div)%nat ->
  let T_s := (1 / inject_Z (value (sampling_rate this)))%Q in
  let n := inject_Z (Z.of_nat (S div)) in
  (Sample.timestamp (sample_of this now dev (S div) (i, row)) ==
   now - T_s * n * (n - 1 - inject_Z (Z.of_nat i)) / (n - 1))%Q.
Proof.
  intros Hdiv Hi T_s n.
  assert (Hn : (n == inject_Z (Z.of_nat div) + 1)%Q).
  { unfold n. rewrite Nat2Z.inj_succ. unfold Z.succ.
    rewrite inject_Z_plus. reflexivity. }
  assert (Hnz : ~ (inject_Z (Z.of_nat div) == 0)%Q).
  { change 0%Q with (inject_Z 0). rewrite inject_Z_injective. lia. }
  destruct (linspace_nth (- T_s * n)%Q 0%Q div i Hdiv Hi) as (y & Hy & Ey).
  unfold sample_of. cbn [Sample.timestamp fst]. fold T_s. fold n.
  rewrite (nth_error_nth _ _ _ (map_nth_error _ _ _ Hy)).
  rewrite Ey, Hn. field.
  intros Hz. apply Hnz. rewrite <- Hz. ring.
Qed.

(** Spreading [n] points over [n] periods misses the spacing of one
    period at every row but the last. *)
Lemma stretched_offset_differs (T now n i : Q) :
  ~ (n - 1 == 0)%Q -> ~ (T == 0)%Q -> ~ (n - 1 - i == 0)%Q ->
  ~ (now - T * n * (n - 1 - i) / (n - 1) == now - T * (n - 1 - i))%Q.
Proof.
  intros Hn HT Hi H.
  assert (Hz : (T * (n - 1 - i) == 0)%Q).
  { setoid_replace (T * (n - 1 - i))%Q
      with ((n - 1) * ((now - T * (n - 1 - i))
                       - (now - T * n * (n - 1 - i) / (n - 1))))%Q
      by (field; exact Hn).
    rewrite H. ring. }
  apply Qmult_integral in Hz. tauto.
Qed.

Lemma period_nonzero (R : MovesenseSamplingRate) :
  ~ (1 / inject_Z (value R) == 0)%Q.
Proof. destruct R; discriminate. Qed.

Lemma inject_nat_gap (k i : nat) :
  (inject_Z (Z.of_nat k) - 1 - inject_Z (Z.of_nat i) ==
   inject_Z (Z.of_nat k - 1 - Z.of_nat i))%Q.
Proof.
  unfold Z.sub. rewrite !inject_Z_plus, !inject_Z_opp. reflexivity.
Qed.

End Timestamps.

(** C1, on the code: for a buffer of [k >= 2] rows the call stamps row
    [i] with [now - T * k * (k - 1 - i) / (k - 1)], where [T] is one
    over the rate: the [k] points of [linspace] span [k] periods, so
    neighbours are [T * k / (k - 1)] apart and not [T], and only the
    last row has the timestamp [now - T * (k - 1 - i)] of the claim. *)
Theorem multi_row_timestamps (now : Q) (dev : string) (buffer : list Q)
    (s : ObjState) (k : nat) :
  let T_s := (1 / inject_Z (value (sampling_rate (self s))))%Q in
  let n := inject_Z (Z.of_nat k) in
  (2 <= k)%nat ->
  length buffer = (k * Z.to_nat (axes (sensor_type (self s))))%nat ->
  exists new,
    notification_handler now dev buffer s = (Ok tt, appended s new) /\
    length new = k /\
    forall i, (i < k)%nat ->
      exists smp, nth_error new i = Some smp /\
        (Sample.timestamp smp ==
         now - T_s * n * (n - 1 - inject_Z (Z.of_nat i)) / (n - 1))%Q /\
        ((i < k - 1)%nat ->
         ~ (Sample.timestamp smp ==
            now - T_s * (n - 1 - inject_Z (Z.of_nat i)))%Q).
Proof.
  intros T_s n Hk Hlen.
  rewrite (handler_reshaped now dev buffer s _ (reshape_multiple buffer _ k Hlen)).
  rewrite rows_length.
  eexists. split; [reflexivity|].
  split; [rewrite length_map, enumerate_length; apply rows_length|].
  intros i Hi.
  pose proof (enumerate_nth _ _ _
                (rows_nth k (Z.to_nat (axes (sensor_type (self s)))) buffer i Hi))
    as Hrow.
  eexists. split; [apply map_nth_error; exact Hrow|].
  assert (Hts : (Sample.timestamp
                   (sample_of (self s) now dev k
                      (i, firstn (Z.to_nat (axes (sensor_type (self s))))
                            (skipn (i * Z.to_nat (axes (sensor_type (self s))))
                               buffer))) ==
                 now - T_s * n * (n - 1 - inject_Z (Z.of_nat i)) / (n - 1))%Q).
  { destruct k as [|div]; [lia|]. apply sample_of_timestamp; lia. }
  split; [exact Hts|].
  intros Hlast. rewrite Hts. apply stretched_offset_differs.
  - unfold n.
    setoid_replace (inject_Z (Z.of_nat k) - 1)%Q
      with (inject_Z (Z.of_nat k) - 1 - inject_Z (Z.of_nat 0))%Q
      by (simpl; ring).
    rewrite inject_nat_gap. change 0%Q with (inject_Z 0).
    rewrite inject_Z_injective. lia.
  - apply period_nonzero.
  - unfold n. rewrite inject_nat_gap. change 0%Q with (inject_Z 0).
    rewrite inject_Z_injective. lia.
Qed.

Lemma multi_row_timestamps_witness :
  let s := {| cls := initial;
              self := {| sensor_type := ACCELEROMETER;
                         sampling_rate := _104_HZ;
                         id := 0;
                         path := [1; 0];
                         data := [] |} |} in
  exists s1 s2,
    data (self (snd (notification_handler 1000 "6C:EC" [1; 2; 3; 4; 5; 6]%Q s)))
      = [s1; s2] /\
    (Sample.timestamp s1 == 1000 - 2 / 104)%Q /\
    (Sample.timestamp s2 == 1000)%Q /\
    ~ (Sample.timestamp s1 == 1000 - (1 / 104) * (2 - 1 - 0))%Q /\
    ~ (Sample.timestamp s2 - Sample.timestamp s1 == 1 / 104)%Q.
Proof.
  intros s.
  destruct (multi_row_timestamps 1000 "6C:EC" [1; 2; 3; 4; 5; 6]%Q s 2
              ltac:(lia) eq_refl) as (new & Hrun & Hlen & Hrows).
  rewrite Hrun.
  destruct new as [|s1 [|s2 [|s3 new]]]; try discriminate.
  exists s1, s2. split; [reflexivity|].
  destruct (Hrows 0%nat ltac:(lia)) as (x1 & E1 & T1 & _).
  destruct (Hrows 1%nat ltac:(lia)) as (x2 & E2 & T2 & _).
  injection E1 as <-. injection E2 as <-.
  simpl in T1, T2.
  split; [rewrite T1; reflexivity|].
  split; [rewrite T2; reflexivity|].
  split; [rewrite T1; discriminate | rewrite T2, T1; discriminate].
Defined.

(* ===================================================================== *)
(** ** Further properties of the code *)
(* ===================================================================== *)

Section LookupAccepts.

Lemma prefix_split (p s : string) :
  String.prefix p s = true -> exists t, s = (p ++ t)%string.
Proof.
  revert s. induction p as [|c p IH]; intros s H.
  - exists s. reflexivity.
  - destruct s as [|d s]; simpl in H; [discriminate|].
    destruct (ascii_dec c d) as [E|E]; [subst d|discriminate].
    destruct (IH s H) as [t ->]. exists t. reflexivity.
Qed.

Lemma from_string_prefixed (K : MovesenseSensorType) (t : string) :
  from_string (PyStr (value K ++ t)%string) = Ok K.
Proof. destruct K, t; reflexivity. Qed.

Lemma from_string_loop_ok_inv (ms : list MovesenseSensorType) (s : string)
    (K : MovesenseSensorType) :
  from_string_loop ms s = Some K ->
  Py.startswith s (value K) = true \/ (s = "IMU" /\ K = IMU9).
Proof.
  induction ms as [|m ms IH]; cbn [from_string_loop]; [discriminate|].
  destruct (String.eqb_spec (value m) s) as [E|_].
  - intros H. injection H as <-. left. unfold Py.startswith.
    rewrite <- E. clear. induction (value m) as [|c p IHp]; simpl; [reflexivity|].
    destruct (ascii_dec c c); [exact IHp | congruence].
  - destruct (Py.startswith s (value m)) eqn:P.
    + intros H. injection H as <-. left. exact P.
    + destruct (String.eqb_spec s "IMU") as [E|_].
      * intros H. injection H as <-. right. split; [exact E | reflexivity].
      * exact IH.
Qed.

Lemma from_int_loop_ok (ms : list MovesenseSamplingRate) (v : pyval)
    (R : MovesenseSamplingRate) :
  from_int_loop ms v = Some R -> int_eq_pyval (value R) v = true.
Proof.
  induction ms as [|m ms IH]; cbn [from_int_loop]; [discriminate|].
  destruct (int_eq_pyval (value m) v) eqn:E; [|exact IH].
  intros H. injection H as <-. exact E.
Qed.

Lemma from_int_loop_first (ms : list MovesenseSamplingRate) (v : pyval)
    (R : MovesenseSamplingRate) :
  In R ms -> int_eq_pyval (value R) v = true ->
  (forall R', int_eq_pyval (value R') v = true -> R' = R) ->
  from_int_loop ms v = Some R.
Proof.
  intros Hin HR Huniq. induction ms as [|m ms IH]; [contradiction|].
  cbn [from_int_loop].
  destruct (int_eq_pyval (value m) v) eqn:E.
  - rewrite (Huniq m E). reflexivity.
  - destruct Hin as [->|Hin]; [congruence | exact (IH Hin)].
Qed.

Lemma rate_members_all (R : MovesenseSamplingRate) : In R members.
Proof. destruct R; simpl; tauto. Qed.

Lemma rate_value_inj (R R' : MovesenseSamplingRate) :
  value R = value R' -> R = R'.
Proof. destruct R, R'; intros H; try reflexivity; discriminate H. Qed.

Lemma int_eq_pyval_unique (v : pyval) (R R' : MovesenseSamplingRate) :
  int_eq_pyval (value R) v = true -> int_eq_pyval (value R') v = true ->
  R' = R.
Proof.
  destruct v as [t|n|x|k|r| |]; cbn [int_eq_pyval]; try discriminate;
    intros H H'; apply rate_value_inj.
  - apply Z.eqb_eq in H, H'. congruence.
  - apply Qeq_bool_iff in H, H'. apply inject_Z_injective.
    rewrite H, H'. reflexivity.
Qed.

End LookupAccepts.

(** X1: [from_string] on a string returns kind [K] exactly when the
    string starts with [K]'s tag (equality included) or is the literal
    ["IMU"] with [K = IMU9]; every other string is rejected. *)
Theorem from_string_accepts_iff (s : string) (K : MovesenseSensorType) :
  from_string (PyStr s) = Ok K <->
  Py.startswith s (value K) = true \/ (s = "IMU" /\ K = IMU9).
Proof.
  split.
  - unfold from_string. destruct (from_string_loop members s) as [m|] eqn:L;
      [|discriminate].
    intros H. injection H as <-. exact (from_string_loop_ok_inv _ _ _ L).
  - intros [P | [-> ->]]; [|reflexivity].
    destruct (prefix_split _ _ P) as [t ->]. apply from_string_prefixed.
Qed.

Lemma from_string_accepts_iff_witness :
  from_string (PyStr "Gyroscope") = Ok GYROSCOPE /\
  from_string (PyStr "gyro") <> Ok GYROSCOPE.
Proof.
  split.
  - exact (proj2 (from_string_accepts_iff "Gyroscope" GYROSCOPE)
             (or_introl eq_refl)).
  - intros H. apply (proj1 (from_string_accepts_iff "gyro" GYROSCOPE)) in H.
    destruct H as [H | [H _]]; discriminate H.
Defined.

(** X2: among the values modelled (strings, integers, floats, enum
    members and the enum classes), [from_int] returns rate [R] exactly
    for a number equal to [R.value]: the integer itself or a float of
    that value.  Any other number, a string of digits and an enum
    member are rejected. *)
Theorem from_int_accepts_iff (v : pyval) (R : MovesenseSamplingRate) :
  from_int v = Ok R <->
  v = PyInt (value R) \/
  exists x, v = PyFloat x /\ (x == inject_Z (value R))%Q.
Proof.
  split.
  - unfold from_int.
    destruct (from_int_loop members v) as [m|] eqn:L; [|discriminate].
    intros H. injection H as <-. apply from_int_loop_ok in L.
    destruct v as [t|n|x|k|r| |]; cbn [int_eq_pyval] in L; try discriminate L.
    + left. apply Z.eqb_eq in L. rewrite L. reflexivity.
    + right. exists x. split; [reflexivity|].
      apply Qeq_bool_iff in L. symmetry. exact L.
  - intros Hv.
    assert (HR : int_eq_pyval (value R) v = true).
    { destruct Hv as [->|(x & -> & Hx)]; cbn [int_eq_pyval].
      - apply Z.eqb_refl.
      - apply Qeq_bool_iff. symmetry. exact Hx. }
    unfold from_int.
    rewrite (from_int_loop_first members v R (rate_members_all R) HR
               (fun R' H' => int_eq_pyval_unique v R R' HR H')).
    reflexivity.
Qed.

Lemma from_int_accepts_iff_witness :
  from_int (PyInt 104) = Ok _104_HZ /\
  from_int (PyFloat 104) = Ok _104_HZ /\
  from_int (PyStr "104") <> Ok _104_HZ.
Proof.
  split; [|split].
  - exact (proj2 (from_int_accepts_iff (PyInt 104) _104_HZ)
             (or_introl eq_refl)).
  - apply (proj2 (from_int_accepts_iff (PyFloat 104) _104_HZ)).
    right. exists 104%Q. split; reflexivity.
  - intros H. apply (proj1 (from_int_accepts_iff (PyStr "104") _104_HZ)) in H.
    destruct H as [H | (x & H & _)]; discriminate H.
Defined.

Section LookupOrder.

Lemma find_unique_perm {A} (P : A -> bool) (l l' : list A) :
  (forall x y, P x = true -> P y = true -> x = y) ->
  Permutation l l' -> find P l = find P l'.
Proof.
  intros Huniq Hperm. induction Hperm as [|x l l' _ IH|x y l|l l' l'' _ IH1 _ IH2].
  - reflexivity.
  - simpl. rewrite IH. reflexivity.
  - simpl. destruct (P x) eqn:Px, (P y) eqn:Py; try reflexivity.
    rewrite (Huniq x y Px Py). reflexivity.
  - rewrite IH1. exact IH2.
Qed.

Lemma tags_prefix_free (K K' : MovesenseSensorType) (t t' : string) :
  (value K ++ t)%string = (value K' ++ t')%string -> K = K'.
Proof. destruct K, K'; simpl; intros H; try reflexivity; congruence. Qed.

Lemma matching_member_unique (s : string) (K K' : MovesenseSensorType) :
  String.eqb (value K) s || String.prefix (value K) s = true ->
  String.eqb (value K') s || String.prefix (value K') s = true ->
  K = K'.
Proof.
  assert (Hp : forall M, String.eqb (value M) s || String.prefix (value M) s = true ->
                         exists t, s = (value M ++ t)%string).
  { intros M H. apply orb_true_iff in H. destruct H as [H|H].
    - apply String.eqb_eq in H. exists "". rewrite <- H.
      clear. induction (value M) as [|c p IH]; simpl; [reflexivity|].
      rewrite <- IH. reflexivity.
    - exact (prefix_split _ _ H). }
  intros H1 H2. destruct (Hp K H1) as [t E1]. destruct (Hp K' H2) as [t' E2].
  apply (tags_prefix_free K K' t t'). rewrite <- E1, <- E2. reflexivity.
Qed.

Lemma from_string_loop_alias (m : MovesenseSensorType) (ms : list MovesenseSensorType) :
  from_string_loop (m :: ms) "IMU" = Some IMU9.
Proof. destruct m; reflexivity. Qed.

End LookupOrder.

(** X3: the result of the lookup loop does not depend on the order in
    which the members are enumerated: over any permutation of the
    catalog it returns what it returns over the declared order. *)
Theorem from_string_order_independent (ms : list MovesenseSensorType) (s : string) :
  Permutation ms members ->
  from_string_loop ms s = from_string_loop members s.
Proof.
  intros Hperm. destruct (String.eqb_spec s "IMU") as [->|NE].
  - destruct ms as [|m ms].
    + apply Permutation_nil in Hperm. discriminate.
    + rewrite from_string_loop_alias. reflexivity.
  - rewrite !(from_string_loop_find _ _ NE).
    apply find_unique_perm; [|exact Hperm].
    intros x y. apply matching_member_unique.
Qed.

Lemma from_string_order_independent_witness :
  from_string_loop (rev members) "Gyroscope" = Some GYROSCOPE.
Proof.
  rewrite (from_string_order_independent (rev members) "Gyroscope"
             (Permutation_sym (Permutation_rev members))).
  reflexivity.
Defined.

(** X4: the catalog is unambiguous: no kind's tag is a prefix of another
    kind's tag (so no two kinds share a tag), no two rates share a
    value, and every kind has at least one axis. *)
Theorem catalog_unambiguous :
  (forall K K' : MovesenseSensorType,
     Py.startswith (value K') (value K) = true -> K = K') /\
  (forall R R' : MovesenseSamplingRate, value R = value R' -> R = R') /\
  (forall K, 0 < axes K).
Proof.
  split; [|split].
  - intros K K'; destruct K, K'; intros H; try reflexivity; discriminate H.
  - intros R R'; destruct R, R'; intros H; try reflexivity; discriminate H.
  - intros K; destruct K; reflexivity.
Qed.

Lemma catalog_unambiguous_witness : IMU6 = IMU6 /\ _125_HZ = _125_HZ.
Proof.
  split.
  - exact (proj1 catalog_unambiguous IMU6 IMU6 eq_refl).
  - exact (proj1 (proj2 catalog_unambiguous) _125_HZ _125_HZ eq_refl).
Defined.

Section ConstructionMore.

(** A successful construction had arguments that both lookups accept. *)
Lemma init_ok_args (a b : pyval) (s s' : ClassState) (y : t) :
  __init__ a b s = (Ok y, s') ->
  from_string a = Ok (sensor_type y) /\ from_int b = Ok (sampling_rate y).
Proof.
  unfold __init__, bind, lift, get_id_counter, set_id_counter.
  destruct a; cbn [from_string map_result]; try discriminate;
    try (destruct (from_string_loop members s0) as [K|]; [|discriminate]);
    (destruct b; cbn [map_result];
     try (destruct (from_int _) as [R|] eqn:HR; [|discriminate]);
     rewrite bytearray_id;
     destruct ((0 <=? id_counter s) && (id_counter s <? 256));
     cbn; try discriminate).
  all: intros H; injection H as <- _; cbn; split; reflexivity.
Qed.

Lemma in_range_iff (n : Z) :
  (0 <=? n) && (n <? 256) = true <-> 0 <= n <= 255.
Proof. rewrite andb_true_iff, Z.leb_le, Z.ltb_lt. lia. Qed.

Lemma init_str_int_raises (tag : string) (n : Z) (s s' : ClassState) (e : PyExn) :
  __init__ (PyStr tag) (PyInt n) s = (Raise e, s') ->
  (e = ValueError (NoSensorTypeMember (PyStr tag)) /\ s' = s) \/
  (e = ValueError (NoSamplingRateMember (PyInt n)) /\ s' = s) \/
  (e = ValueError ByteOutOfRange /\ ~ 0 <= id_counter s <= 255 /\
   s' = {| id_counter := id_counter s + 1 |}).
Proof.
  destruct (from_string (PyStr tag)) as [K|e1] eqn:HK.
  - destruct (from_int (PyInt n)) as [R|e2] eqn:HR.
    + rewrite (init_resolved _ _ K R s HK HR).
      destruct ((0 <=? id_counter s) && (id_counter s <? 256)) eqn:E;
        [discriminate|].
      intros H. injection H as <- <-. right. right.
      split; [reflexivity|]. split; [|reflexivity].
      rewrite <- in_range_iff, E. discriminate.
    + rewrite (init_rate_fails _ _ K e2 s HK); [|discriminate|exact HR].
      intros H. injection H as <- <-. right. left. split; [|reflexivity].
      unfold from_int in HR.
      destruct (from_int_loop members (PyInt n)); [discriminate|].
      injection HR as <-. reflexivity.
  - rewrite (init_kind_fails _ _ e1 s); [|discriminate|exact HK].
    intros H. injection H as <- <-. left. split; [|reflexivity].
    unfold from_string in HK.
    destruct (from_string_loop members tag); [discriminate|].
    injection HK as <-. reflexivity.
Qed.

End ConstructionMore.

(** X5: a constructor call returns a sensor exactly when both lookups
    accept the arguments and the counter is in [0, 255]; the sensor
    then has the looked-up kind and rate, the old counter as id, the
    path [1], id, text, and an empty log, and the counter has grown by
    one. *)
Theorem init_succeeds_iff (a b : pyval) (s s' : ClassState) (y : t) :
  __init__ a b s = (Ok y, s') <->
  from_string a = Ok (sensor_type y) /\
  from_int b = Ok (sampling_rate y) /\
  0 <= id_counter s <= 255 /\
  id y = id_counter s /\
  path y = 1 :: id_counter s ::
           char_codes (path_text (sensor_type y) (sampling_rate y)) /\
  data y = [] /\
  s' = {| id_counter := id_counter s + 1 |}.
Proof.
  split.
  - intros H. destruct (init_ok_args a b s s' y H) as [HK HR].
    split; [exact HK|]. split; [exact HR|].
    remember (sensor_type y) as K eqn:EK.
    remember (sampling_rate y) as R eqn:ER. clear EK ER.
    rewrite (init_resolved a b _ _ s HK HR) in H.
    destruct ((0 <=? id_counter s) && (id_counter s <? 256)) eqn:E;
      [|discriminate].
    apply in_range_iff in E. split; [exact E|].
    rewrite path_text_utf8 in H.
    injection H as Hy Hs. subst y s'. repeat split.
  - intros (HK & HR & Hid & Hi & Hp & Hd & ->).
    rewrite (init_resolved a b _ _ s HK HR).
    rewrite (proj2 (in_range_iff _) Hid), path_text_utf8.
    destruct y as [k r i p d].
    cbn [sensor_type sampling_rate id path data] in *. subst.
    reflexivity.
Qed.

Lemma init_succeeds_iff_witness :
  exists y, __init__ (PyStr "HR") (PyInt 125) {| id_counter := 3 |}
            = (Ok y, {| id_counter := 4 |}) /\
            sensor_type y = HEART_RATE /\ sampling_rate y = _125_HZ.
Proof.
  exists {| sensor_type := HEART_RATE; sampling_rate := _125_HZ; id := 3;
            path := 1 :: 3 :: char_codes "/Meas/HR/125"; data := [] |}.
  split; [|split; reflexivity].
  apply (proj2 (init_succeeds_iff (PyStr "HR") (PyInt 125)
                  {| id_counter := 3 |} {| id_counter := 4 |} _)).
  cbn. repeat split; lia.
Defined.

(** X6: [from_path] never raises anything but the four [ValueError]s;
    a failed call leaves the counter as it was, except for the failure
    of the id byte, which happens only with the counter outside
    [0, 255] and after the counter has been incremented. *)
Theorem from_path_raises_only (p : string) (s s' : ClassState) (e : PyExn) :
  from_path p s = (Raise e, s') ->
  (s' = s /\
   (error_kind e = Some MalformedPath \/
    error_kind e = Some UnknownSensorKind \/
    error_kind e = Some UnknownSamplingRate)) \/
  (s' = {| id_counter := id_counter s + 1 |} /\
   error_kind e = Some IdOutOfRange /\ ~ 0 <= id_counter s <= 255).
Proof.
  unfold from_path.
  destruct (Py.split "/" p) as [|s1 [|s2 [|s3 [|s4 [|s5 l]]]]];
    try (intros H; injection H as <- <-; left; split; [|left]; reflexivity).
  destruct (Py.int s4) as [n|];
    [|intros H; injection H as <- <-; left; split; [|left]; reflexivity].
  intros H. apply init_str_int_raises in H.
  destruct H as [[-> ->] | [[-> ->] | (-> & Hid & ->)]].
  - left. split; [|right; left]; reflexivity.
  - left. split; [|right; right]; reflexivity.
  - right. split; [reflexivity|]. split; [reflexivity | exact Hid].
Qed.

Lemma from_path_raises_only_witness :
  exists e, from_path "/Meas/Foo/104" {| id_counter := 300 |}
            = (Raise e, {| id_counter := 300 |}) /\
            error_kind e = Some UnknownSensorKind.
Proof.
  eexists. split; [reflexivity|].
  destruct (from_path_raises_only "/Meas/Foo/104" {| id_counter := 300 |}
              {| id_counter := 300 |} _ eq_refl)
    as [[_ [H | [H | H]]] | [H _]]; try discriminate H.
  exact H.
Defined.

Section RunMore.

Lemma call_ok_path (c : Call) (s s' : ClassState) (y : t) :
  call c s = (Ok y, s') -> nth 1 (path y) 0 = id y.
Proof.
  assert (Hinit : forall a b, __init__ a b s = (Ok y, s') ->
                              nth 1 (path y) 0 = id y).
  { intros a b H. rewrite (init_ok_path a b s s' y H). reflexivity. }
  destruct c as [a b|p]; simpl; [apply Hinit|].
  unfold from_path.
  destruct (Py.split "/" p) as [|s1 [|s2 [|s3 [|s4 [|s5 l]]]]];
    try discriminate.
  destruct (Py.int s4); [apply Hinit | discriminate].
Qed.

Lemma constructed_ids_map (outs : list (result t)) :
  constructed_ids outs = map id (constructed outs).
Proof.
  induction outs as [|[x|e] outs IH]; simpl; [reflexivity | rewrite IH |];
    auto.
Qed.

(** Every sensor a run constructs carries its id as second path byte. *)
Lemma run_paths_carry_ids (calls : list Call) : forall s,
  map (fun p => nth 1 p 0) (constructed_paths (fst (run calls s))) =
  constructed_ids (fst (run calls s)).
Proof.
  unfold constructed_paths.
  induction calls as [|c calls IH]; intros s; simpl; [reflexivity|].
  pose proof (call_ok_path c s) as Hc.
  destruct (call c s) as [r s1].
  specialize (IH s1). destruct (run calls s1) as [rs s2]. simpl in *.
  destruct r as [x|e]; simpl; [|exact IH].
  rewrite IH, (Hc s1 x eq_refl). reflexivity.
Qed.

(** Ids handed out always fit a byte. *)
Lemma run_ids_fit_byte (calls : list Call) : forall s,
  Forall (fun i => 0 <= i <= 255) (constructed_ids (fst (run calls s))).
Proof.
  induction calls as [|c calls IH]; intros s; simpl; [constructor|].
  pose proof (call_step c s) as Hc.
  destruct (call c s) as [r s1].
  specialize (IH s1). destruct (run calls s1) as [rs s2]. simpl in *.
  destruct r as [x|e]; simpl; [|exact IH].
  constructor; [lia | exact IH].
Qed.

Lemma sorted_in_range_length (l : list Z) : forall lo hi,
  StronglySorted Z.lt l -> Forall (fun i => lo <= i <= hi) l ->
  Z.of_nat (length l) <= Z.max 0 (hi - lo + 1).
Proof.
  induction l as [|x l IH]; intros lo hi Hs Hr; simpl length; [lia|].
  inversion Hs as [|? ? Hs' Hx]; subst. inversion Hr as [|? ? Hx0 Hr']; subst.
  assert (Hr2 : Forall (fun i => x + 1 <= i <= hi) l).
  { rewrite Forall_forall in *. intros i Hi.
    specialize (Hx i Hi). specialize (Hr' i Hi). lia. }
  specialize (IH (x + 1) hi Hs' Hr2). lia.
Qed.

End RunMore.

(** X7: a process constructs at most 256 sensors, whatever calls it
    makes; 256 constructions in a row do succeed. *)
Theorem at_most_256_sensors :
  (forall calls,
     (length (constructed (fst (run calls initial))) <= 256)%nat) /\
  length (constructed
            (fst (run (repeat (Construct (PyStr "Acc") (PyInt 13)) 256) initial)))
  = 256%nat.
Proof.
  split; [|vm_compute; reflexivity].
  intros calls.
  pose proof (sorted_in_range_length _ 0 255
                (proj2 (proj2 (run_ids calls initial)))
                (run_ids_fit_byte calls initial)) as H.
  rewrite constructed_ids_map, length_map in H. lia.
Qed.

(** X8: once the counter has passed 255 no call constructs a sensor
    any more, and the counter never comes back. *)
Theorem no_construction_after_overflow (calls : list Call) (s : ClassState) :
  255 < id_counter s ->
  constructed (fst (run calls s)) = [] /\
  id_counter s <= id_counter (snd (run calls s)).
Proof.
  revert s. induction calls as [|c calls IH]; intros s Hs; simpl.
  - split; [reflexivity | lia].
  - pose proof (call_step c s) as Hc.
    destruct (call c s) as [r s1].
    destruct r as [x|e]; [lia|].
    assert (Hs1 : 255 < id_counter s1) by (destruct Hc; lia).
    specialize (IH s1 Hs1). destruct (run calls s1) as [rs s2]. simpl in *.
    split; [apply IH | destruct Hc; lia].
Qed.

Lemma no_construction_after_overflow_witness :
  constructed (fst (run [Construct (PyStr "Acc") (PyInt 13);
                         FromPath "/Meas/ECG/125"] {| id_counter := 256 |})) = [].
Proof.
  apply (no_construction_after_overflow
           [Construct (PyStr "Acc") (PyInt 13); FromPath "/Meas/ECG/125"]
           {| id_counter := 256 |}).
  simpl. lia.
Defined.

(** X9: the paths of the sensors constructed in one process are
    pairwise distinct. *)
Theorem paths_pairwise_distinct (calls : list Call) :
  NoDup (constructed_paths (fst (run calls initial))).
Proof.
  apply (NoDup_map_inv (fun p => nth 1 p 0)).
  rewrite run_paths_carry_ids.
  apply strictly_sorted_nodup. apply (run_ids calls initial).
Qed.

Section PathInjective.

Lemma ord_inj (c d : ascii) : Py.ord c = Py.ord d -> c = d.
Proof.
  unfold Py.ord. intros H. apply N2Z.inj in H.
  rewrite <- (ascii_N_embedding c), <- (ascii_N_embedding d), H. reflexivity.
Qed.

Lemma char_codes_inj (s1 s2 : string) :
  char_codes s1 = char_codes s2 -> s1 = s2.
Proof.
  unfold char_codes. revert s2.
  induction s1 as [|c s1 IH]; intros [|d s2] H; simpl in H;
    try discriminate; [reflexivity|].
  injection H as Hc Hs. rewrite (ord_inj _ _ Hc), (IH _ Hs). reflexivity.
Qed.

Lemma path_text_inj K R K' R' :
  path_text K R = path_text K' R' -> K = K' /\ R = R'.
Proof.
  intros H.
  destruct (from_path_path_text K R initial ltac:(simpl; lia)) as (x & Hx & HK & HR).
  destruct (from_path_path_text K' R' initial ltac:(simpl; lia)) as (x' & Hx' & HK' & HR').
  rewrite H, Hx' in Hx. injection Hx as ->.
  split; congruence.
Qed.

End PathInjective.

(** X10: the path identifies the sensor: two constructed sensors with
    equal paths have the same id, kind and rate. *)
Theorem path_determines_sensor (a b a' b' : pyval) (s s1 u u1 : ClassState)
    (y y' : t) :
  __init__ a b s = (Ok y, s1) ->
  __init__ a' b' u = (Ok y', u1) ->
  path y = path y' ->
  id y = id y' /\ sensor_type y = sensor_type y' /\
  sampling_rate y = sampling_rate y'.
Proof.
  intros Hy Hy' Hp.
  rewrite (init_ok_path _ _ _ _ _ Hy), (init_ok_path _ _ _ _ _ Hy'),
          !path_text_utf8 in Hp.
  split; [exact (f_equal (fun p => nth 1 p 0) Hp)|].
  apply path_text_inj. apply char_codes_inj.
  exact (f_equal (skipn 2) Hp).
Qed.

Lemma path_determines_sensor_witness :
  let y := {| sensor_type := TEMPERATURE; sampling_rate := _13_HZ; id := 2;
              path := 1 :: 2 :: char_codes "/Meas/Temp/13"; data := [] |} in
  __init__ (PyStr "Temp") (PyInt 13) {| id_counter := 2 |}
    = (Ok y, {| id_counter := 3 |}) /\
  __init__ (PyStr "Temperature") (PyInt 13) {| id_counter := 2 |}
    = (Ok y, {| id_counter := 3 |}) /\
  (id y = id y /\ sensor_type y = sensor_type y /\
   sampling_rate y = sampling_rate y).
Proof.
  intros y. split; [reflexivity|]. split; [reflexivity|].
  exact (path_determines_sensor (PyStr "Temp") (PyInt 13)
           (PyStr "Temperature") (PyInt 13)
           {| id_counter := 2 |} {| id_counter := 3 |}
           {| id_counter := 2 |} {| id_counter := 3 |}
           y y eq_refl eq_refl eq_refl).
Defined.

Section SplitJoin.

Lemma split_no_slash (a : string) :
  no_slash a = true -> Py.split "/" a = [a].
Proof.
  unfold no_slash. induction a as [|c a IH]; simpl; [reflexivity|].
  intros H. apply andb_true_iff in H. destruct H as [Hc Ha].
  apply negb_true_iff in Hc. rewrite Hc, (IH Ha). reflexivity.
Qed.

Lemma split_segment (a rest : string) :
  no_slash a = true ->
  Py.split "/" (a ++ String "/" rest)%string = a :: Py.split "/" rest.
Proof.
  unfold no_slash. induction a as [|c a IH]; simpl; [reflexivity|].
  intros H. apply andb_true_iff in H. destruct H as [Hc Ha].
  apply negb_true_iff in Hc. rewrite Hc, (IH Ha). reflexivity.
Qed.

Lemma split_four (pre mid tag rate : string) :
  no_slash pre = true -> no_slash mid = true ->
  no_slash tag = true -> no_slash rate = true ->
  Py.split "/" (pre ++ String "/" (mid ++ String "/" (tag ++ String "/" rate)))%string
  = [pre; mid; tag; rate].
Proof.
  intros H1 H2 H3 H4.
  rewrite !split_segment by assumption.
  rewrite (split_no_slash rate H4). reflexivity.
Qed.

End SplitJoin.

Section IntStr.

Lemma int_digits_text (d : Decimal.uint) : forall acc,
  Py.int_digits acc (digits_text d) = Some (read_digits acc d).
Proof.
  unfold digits_text.
  induction d as [|d IH|d IH|d IH|d IH|d IH|d IH|d IH|d IH|d IH|d IH];
    intros acc; [reflexivity|..]; cbn -[Z.mul Z.add]; apply IH.
Qed.

Lemma of_uint_acc_read (d : Decimal.uint) : forall acc,
  Z.pos (Pos.of_uint_acc d acc) = read_digits (Z.pos acc) d.
Proof.
  induction d as [|d IH|d IH|d IH|d IH|d IH|d IH|d IH|d IH|d IH|d IH];
    intros acc; [reflexivity|..]; cbn [Pos.of_uint_acc read_digits];
    rewrite IH; f_equal; lia.
Qed.

Lemma of_uint_read (d : Decimal.uint) :
  Z.of_N (Pos.of_uint d) = read_digits 0 d.
Proof.
  induction d as [|d IH|d IH|d IH|d IH|d IH|d IH|d IH|d IH|d IH|d IH];
    [reflexivity | exact IH |..];
    cbn [Pos.of_uint read_digits Z.of_N]; rewrite of_uint_acc_read; reflexivity.
Qed.

Lemma int_unsigned_text (d : Decimal.uint) :
  d <> Decimal.Nil ->
  Py.int_unsigned (digits_text d) = Some (Z.of_uint d).
Proof.
  intros Hd. unfold Z.of_uint. rewrite of_uint_read.
  destruct d; [contradiction|..]; unfold digits_text;
    cbn -[Z.mul Z.add]; apply int_digits_text.
Qed.

Lemma digits_text_plain (d : Decimal.uint) :
  Forall (fun c => Py.isspace c = false /\ Ascii.eqb c "/" = false /\
                   Ascii.eqb c "+" = false /\ Ascii.eqb c "-" = false)
         (digits_text d).
Proof.
  unfold digits_text.
  induction d; cbn [NilEmpty.string_of_uint list_ascii_of_string];
    constructor; try exact IHd; repeat split.
Qed.

Lemma lstrip_plain (cs : list ascii) :
  Forall (fun c => Py.isspace c = false) cs -> Py.lstrip cs = cs.
Proof.
  intros H. destruct H as [|c cs Hc _]; [reflexivity|].
  simpl. rewrite Hc. reflexivity.
Qed.

Lemma strip_plain (cs : list ascii) :
  Forall (fun c => Py.isspace c = false) cs -> Py.strip cs = cs.
Proof.
  intros H. unfold Py.strip. rewrite (lstrip_plain cs H).
  rewrite lstrip_plain by (apply Forall_rev; exact H).
  apply rev_involutive.
Qed.

(** [int] reads back what [str] writes. *)
Lemma int_str (n : Z) : Py.int (Py.str n) = Some n.
Proof.
  unfold Py.str, Py.int.
  rewrite <- (DecimalZ.of_to n) at 2.
  destruct (Z.to_int n) as [d|d] eqn:E.
  - assert (Hd : d <> Decimal.Nil).
    { destruct n; simpl in E; try discriminate E; injection E as <-;
        [discriminate | apply Unsigned.to_uint_nonnil]. }
    cbn [NilZero.string_of_int Z.of_int].
    replace (NilZero.string_of_uint d) with (NilEmpty.string_of_uint d)
      by (destruct d; [contradiction|..]; reflexivity).
    fold (digits_text d).
    pose proof (digits_text_plain d) as Hp.
    rewrite strip_plain by (eapply Forall_impl; [|exact Hp]; intros c Hc; apply Hc).
    pose proof (int_unsigned_text d Hd) as Hu.
    destruct (digits_text d) as [|c cs]; [discriminate Hu|].
    inversion Hp as [|? ? (_ & _ & Hplus & Hminus) _]; subst.
    rewrite Hplus, Hminus. exact Hu.
  - assert (Hd : d <> Decimal.Nil).
    { destruct n; simpl in E; try discriminate E; injection E as <-;
        apply Unsigned.to_uint_nonnil. }
    cbn [NilZero.string_of_int Z.of_int list_ascii_of_string].
    replace (NilZero.string_of_uint d) with (NilEmpty.string_of_uint d)
      by (destruct d; [contradiction|..]; reflexivity).
    fold (digits_text d).
    pose proof (digits_text_plain d) as Hp.
    rewrite strip_plain.
    + cbn [Ascii.eqb Bool.eqb]. rewrite (int_unsigned_text d Hd). reflexivity.
    + constructor; [reflexivity|].
      eapply Forall_impl; [|exact Hp]. intros c Hc. apply Hc.
Qed.

Lemma str_no_slash (n : Z) : no_slash (Py.str n) = true.
Proof.
  unfold Py.str, no_slash.
  assert (H : forall d, forallb (fun c => negb (Ascii.eqb c "/"))
                          (list_ascii_of_string (NilZero.string_of_uint d)) = true).
  { intros d. destruct d; try reflexivity;
      (apply forallb_forall; intros c Hc;
       pose proof (digits_text_plain d) as Hp; rewrite Forall_forall in Hp;
       cbn [NilZero.string_of_uint NilEmpty.string_of_uint list_ascii_of_string] in Hc;
       destruct Hc as [<-|Hc]; [reflexivity|];
       destruct (Hp c Hc) as (_ & -> & _); reflexivity). }
  destruct (Z.to_int n) as [d|d]; cbn [NilZero.string_of_int list_ascii_of_string forallb].
  - apply H.
  - rewrite H. reflexivity.
Qed.

End IntStr.

(** X11: [from_path] undoes the path text format for every tag without
    a slash and every integer, valid or not: on
    ["/Meas/<tag>/<n>"] it does exactly what the constructor does on
    [tag] and [n] (same sensor or same exception, same counter). *)
Theorem from_path_inverts_path_format (tag : string) (n : Z) (s : ClassState) :
  no_slash tag = true ->
  from_path ("/Meas/" ++ tag ++ "/" ++ Py.str n)%string s =
  __init__ (PyStr tag) (PyInt n) s.
Proof.
  intros Htag. unfold from_path.
  change ("/Meas/" ++ tag ++ "/" ++ Py.str n)%string
    with ("" ++ String "/" ("Meas" ++ String "/" (tag ++ String "/" (Py.str n))))%string.
  rewrite (split_four "" "Meas" tag (Py.str n) eq_refl eq_refl Htag (str_no_slash n)).
  rewrite int_str. reflexivity.
Qed.

(** X12: [from_path] looks at the last two of the four segments only:
    whatever stands in the first two (for instance an id prefix before
    the first slash, or another word than "Meas"), the outcome is that
    of ["/Meas/<tag>/<rate>"]. *)
Theorem from_path_ignores_leading_segments (pre mid tag rate : string)
    (s : ClassState) :
  no_slash pre = true -> no_slash mid = true ->
  no_slash tag = true -> no_slash rate = true ->
  from_path (pre ++ "/" ++ mid ++ "/" ++ tag ++ "/" ++ rate)%string s =
  from_path ("/Meas/" ++ tag ++ "/" ++ rate)%string s.
Proof.
  intros H1 H2 H3 H4. unfold from_path.
  change (pre ++ "/" ++ mid ++ "/" ++ tag ++ "/" ++ rate)%string
    with (pre ++ String "/" (mid ++ String "/" (tag ++ String "/" rate)))%string.
  change ("/Meas/" ++ tag ++ "/" ++ rate)%string
    with ("" ++ String "/" ("Meas" ++ String "/" (tag ++ String "/" rate)))%string.
  rewrite (split_four pre mid tag rate H1 H2 H3 H4).
  rewrite (split_four "" "Meas" tag rate eq_refl eq_refl H3 H4).
  reflexivity.
Qed.

Lemma from_path_inverts_path_format_witness :
  from_path "/Meas/Accel/-7" {| id_counter := 4 |} =
  __init__ (PyStr "Accel") (PyInt (-7)) {| id_counter := 4 |}.
Proof.
  exact (from_path_inverts_path_format "Accel" (-7) {| id_counter := 4 |} eq_refl).
Defined.

Lemma from_path_ignores_leading_segments_witness :
  from_path "id=5/Data/ECG/125" initial = from_path "/Meas/ECG/125" initial.
Proof.
  exact (from_path_ignores_leading_segments "id=5" "Data" "ECG" "125" initial
           eq_refl eq_refl eq_refl eq_refl).
Defined.

Section DecoderMore.

Lemma divisible_rows (buffer : list Q) (K : MovesenseSensorType) :
  Z.of_nat (length buffer) mod axes K = 0 ->
  exists k, length buffer = (k * Z.to_nat (axes K))%nat.
Proof.
  intros H. pose proof (axes_pos K) as Hpos.
  exists (Z.to_nat (Z.of_nat (length buffer) / axes K)).
  apply Z.div_exact in H; [|lia].
  apply Nat2Z.inj. rewrite Nat2Z.inj_mul, !Z2Nat.id; [lia | lia |].
  apply Z.div_pos; lia.
Qed.

(** The call in full: new samples for a buffer the axis count divides,
    the reshape error otherwise. *)
Lemma handler_cases (now : Q) (dev : string) (buffer : list Q) (s : ObjState) :
  let K := sensor_type (self s) in
  let c := Z.to_nat (axes K) in
  (exists k, length buffer = (k * c)%nat /\
     notification_handler now dev buffer s =
     (Ok tt, appended s (map (sample_of (self s) now dev k)
                             (enumerate (np.rows k c buffer))))) \/
  (Z.of_nat (length buffer) mod axes K <> 0 /\
   notification_handler now dev buffer s =
   (Raise (ValueError (CannotReshape (length buffer) (axes K))), s)).
Proof.
  intros K c.
  destruct (Z.eq_dec (Z.of_nat (length buffer) mod axes K) 0) as [H|H].
  - left. destruct (divisible_rows buffer K H) as [k Hk]. exists k.
    split; [exact Hk|].
    rewrite (handler_reshaped now dev buffer s _ (reshape_multiple buffer K k Hk)).
    rewrite rows_length. reflexivity.
  - right. split; [exact H|].
    apply handler_not_reshaped. apply reshape_not_multiple. exact H.
Qed.

Lemma enumerate_snd {A} (xs : list A) : map snd (enumerate xs) = xs.
Proof.
  unfold enumerate. generalize 0%nat.
  induction xs as [|x xs IH]; intros start; simpl; [reflexivity|].
  rewrite IH. reflexivity.
Qed.

Lemma samples_sensor_data (this : t) (now : Q) (dev : string) (k : nat)
    (rows : list (list Q)) :
  map Sample.sensor_data (map (sample_of this now dev k) (enumerate rows)) = rows.
Proof.
  rewrite map_map.
  rewrite <- (enumerate_snd rows) at 2. apply map_ext. reflexivity.
Qed.

Lemma rows_concat (k c : nat) : forall buffer,
  length buffer = (k * c)%nat -> concat (np.rows k c buffer) = buffer.
Proof.
  induction k as [|k IH]; intros buffer Hlen; simpl.
  - destruct buffer; [reflexivity | discriminate].
  - rewrite IH; [apply firstn_skipn|].
    rewrite length_skipn, Hlen. simpl. lia.
Qed.

Lemma rows_row_length (k c : nat) : forall buffer,
  length buffer = (k * c)%nat ->
  Forall (fun row => length row = c) (np.rows k c buffer).
Proof.
  induction k as [|k IH]; intros buffer Hlen; simpl; constructor.
  - rewrite length_firstn, Hlen. simpl. lia.
  - apply IH. rewrite length_skipn, Hlen. simpl. lia.
Qed.

End DecoderMore.

(** X13: a call succeeds exactly when the axis count divides the
    buffer length. *)
Theorem handler_succeeds_iff (now : Q) (dev : string) (buffer : list Q)
    (s : ObjState) :
  fst (notification_handler now dev buffer s) = Ok tt <->
  Z.of_nat (length buffer) mod axes (sensor_type (self s)) = 0.
Proof.
  destruct (handler_cases now dev buffer s) as [(k & Hk & ->) | (H & ->)]; simpl.
  - split; [|reflexivity]. intros _. rewrite Hk.
    rewrite Nat2Z.inj_mul, Z2Nat.id by (pose proof (axes_pos (sensor_type (self s))); lia).
    apply Z.mod_mul. pose proof (axes_pos (sensor_type (self s))). lia.
  - split; [discriminate | contradiction].
Qed.

Lemma handler_succeeds_iff_witness :
  let s := {| cls := initial;
              self := {| sensor_type := GYROSCOPE; sampling_rate := _208_HZ;
                         id := 0; path := [1; 0]; data := [] |} |} in
  fst (notification_handler 5 "6C:EC" [1; 2; 3]%Q s) = Ok tt /\
  fst (notification_handler 5 "6C:EC" [1; 2]%Q s) <> Ok tt.
Proof.
  intros s. split.
  - exact (proj2 (handler_succeeds_iff 5 "6C:EC" [1; 2; 3]%Q s) eq_refl).
  - intros H. apply (proj1 (handler_succeeds_iff 5 "6C:EC" [1; 2]%Q s)) in H.
    discriminate H.
Defined.

(** X14: nothing is lost, duplicated or reordered: the axis values of
    the appended samples, concatenated in log order, are the buffer. *)
Theorem handler_flatten_roundtrip (now : Q) (dev : string) (buffer : list Q)
    (s : ObjState) :
  Z.of_nat (length buffer) mod axes (sensor_type (self s)) = 0 ->
  exists new,
    notification_handler now dev buffer s = (Ok tt, appended s new) /\
    concat (map Sample.sensor_data new) = buffer.
Proof.
  intros H.
  destruct (handler_cases now dev buffer s) as [(k & Hk & ->) | (H' & _)];
    [|contradiction].
  eexists. split; [reflexivity|].
  rewrite samples_sensor_data. apply rows_concat. exact Hk.
Qed.

Lemma handler_flatten_roundtrip_witness :
  let s := {| cls := initial;
              self := {| sensor_type := GYROSCOPE; sampling_rate := _208_HZ;
                         id := 0; path := [1; 0]; data := [] |} |} in
  exists new,
    notification_handler 5 "6C:EC" [1; 2; 3; 4; 5; 6]%Q s = (Ok tt, appended s new) /\
    concat (map Sample.sensor_data new) = [1; 2; 3; 4; 5; 6]%Q.
Proof.
  intros s.
  exact (handler_flatten_roundtrip 5 "6C:EC" [1; 2; 3; 4; 5; 6]%Q s eq_refl).
Defined.

(** X15: an empty buffer is accepted for every kind and leaves the
    whole state as it was. *)
Theorem handler_empty_buffer (now : Q) (dev : string) (s : ObjState) :
  notification_handler now dev [] s = (Ok tt, s).
Proof.
  destruct (handler_cases now dev [] s) as [(k & Hk & ->) | (H & _)].
  - destruct k as [|k]; [simpl; rewrite appended_nil; reflexivity|].
    pose proof (axes_pos (sensor_type (self s))). simpl in Hk. lia.
  - exfalso. apply H. simpl. apply Z.mod_0_l.
    pose proof (axes_pos (sensor_type (self s))). lia.
Qed.

(** X16: what a call returns and appends depends on the sensor's kind
    and rate only, not on its log, id or path, nor on the counter. *)
Theorem handler_ignores_log (now : Q) (dev : string) (buffer : list Q)
    (s1 s2 : ObjState) :
  sensor_type (self s1) = sensor_type (self s2) ->
  sampling_rate (self s1) = sampling_rate (self s2) ->
  exists r new,
    notification_handler now dev buffer s1 = (r, appended s1 new) /\
    notification_handler now dev buffer s2 = (r, appended s2 new).
Proof.
  intros HK HR.
  destruct (handler_cases now dev buffer s1) as [(k & Hk & ->) | (H & ->)].
  - destruct (handler_cases now dev buffer s2) as [(k' & Hk' & ->) | (H' & _)].
    + assert (k' = k).
      { rewrite <- HK in Hk'. rewrite Hk in Hk'.
        pose proof (axes_pos (sensor_type (self s1))). nia. }
      subst k'. do 2 eexists. split; [reflexivity|].
      rewrite <- HK. do 2 f_equal. apply map_ext.
      intros p. unfold sample_of. rewrite HK, HR. reflexivity.
    + exfalso. apply H'. rewrite <- HK, Hk.
      rewrite Nat2Z.inj_mul, Z2Nat.id by (pose proof (axes_pos (sensor_type (self s1))); lia).
      apply Z.mod_mul. pose proof (axes_pos (sensor_type (self s1))). lia.
  - exists (Raise (ValueError (CannotReshape (length buffer) (axes (sensor_type (self s1)))))), [].
    rewrite !appended_nil. split; [reflexivity|].
    rewrite HK in H |- *. apply handler_not_reshaped.
    apply reshape_not_multiple. exact H.
Qed.

Lemma handler_ignores_log_witness :
  let x := {| sensor_type := GYROSCOPE; sampling_rate := _208_HZ;
              id := 0; path := [1; 0]; data := [] |} in
  let y := {| sensor_type := GYROSCOPE; sampling_rate := _208_HZ;
              id := 9; path := [1; 9];
              data := [ {| Sample.timestamp := 1; Sample.device := "6C:EC";
                           Sample.sensor_type := "Gyro";
                           Sample.sensor_data := [7; 8; 9]%Q |} ] |} in
  let s1 := {| cls := initial; self := x |} in
  let s2 := {| cls := {| id_counter := 10 |}; self := y |} in
  exists r new,
    notification_handler 5 "6C:EC" [1; 2; 3]%Q s1 = (r, appended s1 new) /\
    notification_handler 5 "6C:EC" [1; 2; 3]%Q s2 = (r, appended s2 new).
Proof.
  intros x y s1 s2.
  exact (handler_ignores_log 5 "6C:EC" [1; 2; 3]%Q s1 s2 eq_refl eq_refl).
Defined.

Section LogInvariant.

Lemma samples_well_formed (this : t) (now : Q) (dev : string) (k : nat)
    (buffer : list Q) :
  length buffer = (k * Z.to_nat (axes (sensor_type this)))%nat ->
  Forall (fun smp => Sample.sensor_type smp = value (sensor_type this) /\
                     Z.of_nat (length (Sample.sensor_data smp)) = axes (sensor_type this))
         (map (sample_of this now dev k)
              (enumerate (np.rows k (Z.to_nat (axes (sensor_type this))) buffer))).
Proof.
  intros Hlen. pose proof (axes_pos (sensor_type this)) as Hpos.
  pose proof (rows_row_length k _ buffer Hlen) as Hrows.
  rewrite <- (enumerate_snd (np.rows k _ buffer)) in Hrows.
  rewrite Forall_map in Hrows |- *.
  eapply Forall_impl; [|exact Hrows]. intros [i row] Hrow. simpl in *.
  split; [reflexivity|]. rewrite Hrow. lia.
Qed.

Lemma handler_keeps_log_well_formed (now : Q) (dev : string) (buffer : list Q)
    (s : ObjState) :
  log_well_formed (self s) ->
  exists new,
    snd (notification_handler now dev buffer s) = appended s new /\
    log_well_formed (self (appended s new)).
Proof.
  intros Hwf.
  destruct (handler_cases now dev buffer s) as [(k & Hk & ->) | (H & ->)].
  - eexists. split; [reflexivity|].
    unfold log_well_formed, appended. cbn [self data sensor_type].
    apply Forall_app. split; [exact Hwf|].
    apply samples_well_formed. exact Hk.
  - exists []. rewrite appended_nil. split; [reflexivity | exact Hwf].
Qed.

End LogInvariant.

(** X17: over any sequence of notifications, accepted or rejected, the
    sensor only ever gains samples at the end of its log, and if every
    logged sample had the sensor's tag and one value per axis before,
    the same holds afterwards (as it does from the empty log of a
    fresh sensor). *)
Theorem deliver_keeps_log_well_formed (ns : list Notification) (s : ObjState) :
  log_well_formed (self s) ->
  exists new,
    snd (deliver ns s) = appended s new /\
    log_well_formed (self (snd (deliver ns s))).
Proof.
  revert s. induction ns as [|n ns IH]; intros s Hwf; simpl.
  - exists []. rewrite appended_nil. split; [reflexivity | exact Hwf].
  - destruct (handler_keeps_log_well_formed (arrival n) (address n) (payload n)
                s Hwf) as (new1 & E1 & Hwf1).
    destruct (notification_handler (arrival n) (address n) (payload n) s)
      as [r s1]. simpl in E1. subst s1.
    destruct (IH _ Hwf1) as (new2 & E2 & Hwf2).
    destruct (deliver ns (appended s new1)) as [rs s2]. simpl in *. subst s2.
    exists (new1 ++ new2). rewrite <- appended_appended.
    split; [reflexivity | exact Hwf2].
Qed.

Lemma deliver_keeps_log_well_formed_witness :
  let s := {| cls := initial;
              self := {| sensor_type := IMU6; sampling_rate := _52_HZ;
                         id := 0; path := [1; 0]; data := [] |} |} in
  let ns := [ {| arrival := 10; address := "6C:EC"; payload := [1; 2; 3; 4; 5; 6]%Q |};
              {| arrival := 11; address := "6C:EC"; payload := [1; 2; 3; 4]%Q |};
              {| arrival := 12; address := "6C:EC"; payload := [] |} ] in
  exists new, snd (deliver ns s) = appended s new /\
              log_well_formed (self (snd (deliver ns s))).
Proof.
  intros s ns. apply (deliver_keeps_log_well_formed ns s). constructor.
Defined.

Section Ascending.

Lemma nth_sample (this : t) (now : Q) (dev : string) (k c i : nat)
    (buffer : list Q) (smp : Sample.t) :
  nth_error (map (sample_of this now dev k) (enumerate (np.rows k c buffer))) i
    = Some smp ->
  (i < k)%nat /\
  smp = sample_of this now dev k (i, firstn c (skipn (i * c) buffer)).
Proof.
  intros H.
  assert (Hi : (i < k)%nat).
  { assert (Hs : nth_error
                   (map (sample_of this now dev k) (enumerate (np.rows k c buffer))) i
                 <> None) by (rewrite H; discriminate).
    apply nth_error_Some in Hs.
    rewrite length_map, enumerate_length, rows_length in Hs. exact Hs. }
  split; [exact Hi|].
  rewrite (map_nth_error _ _ _ (enumerate_nth _ _ _ (rows_nth k c buffer i Hi))) in H.
  injection H as <-. reflexivity.
Qed.

Lemma stretched_formula (T now n i : Q) :
  ~ (n - 1 == 0)%Q ->
  (now - T * n * (n - 1 - i) / (n - 1) == now - (T * n / (n - 1)) * (n - 1 - i))%Q.
Proof. intros H. field. exact H. Qed.

Lemma stretch_factor_pos (T n : Q) :
  (0 < T)%Q -> (1 < n)%Q -> (0 < T * n / (n - 1))%Q.
Proof.
  intros HT Hn. apply Qlt_shift_div_l; [lra|]. nra.
Qed.

Lemma period_pos (R : MovesenseSamplingRate) :
  (0 < 1 / inject_Z (value R))%Q.
Proof. destruct R; reflexivity. Qed.

Lemma inject_nat_lt (i j : nat) :
  (i < j)%nat -> (inject_Z (Z.of_nat i) < inject_Z (Z.of_nat j))%Q.
Proof. intros H. rewrite <- Zlt_Qlt. lia. Qed.

Lemma inject_nat_le (i j : nat) :
  (i <= j)%nat -> (inject_Z (Z.of_nat i) <= inject_Z (Z.of_nat j))%Q.
Proof. intros H. rewrite <- Zle_Qle. lia. Qed.

End Ascending.

(** X18: within one packet of [k >= 2] rows the timestamps increase
    strictly with the row, lie between [now - k / rate] and [now], and
    the first row has [now - k / rate], the last [now]. *)
Theorem packet_timestamps_ascend (now : Q) (dev : string) (buffer : list Q)
    (s : ObjState) (k : nat) :
  let T_s := (1 / inject_Z (value (sampling_rate (self s))))%Q in
  let n := inject_Z (Z.of_nat k) in
  (2 <= k)%nat ->
  length buffer = (k * Z.to_nat (axes (sensor_type (self s))))%nat ->
  exists new,
    notification_handler now dev buffer s = (Ok tt, appended s new) /\
    length new = k /\
    (forall i j a b, (i < j)%nat ->
       nth_error new i = Some a -> nth_error new j = Some b ->
       (Sample.timestamp a < Sample.timestamp b)%Q) /\
    (forall i a, nth_error new i = Some a ->
       (now - n * T_s <= Sample.timestamp a <= now)%Q) /\
    (exists a, nth_error new 0 = Some a /\
               (Sample.timestamp a == now - n * T_s)%Q) /\
    (exists b, nth_error new (k - 1) = Some b /\
               (Sample.timestamp b == now)%Q).
Proof.
  intros T_s n Hk Hlen.
  rewrite (handler_reshaped now dev buffer s _ (reshape_multiple buffer _ k Hlen)).
  rewrite rows_length.
  set (c := Z.to_nat (axes (sensor_type (self s)))).
  set (new := map (sample_of (self s) now dev k) (enumerate (np.rows k c buffer))).
  assert (Hn : (1 < n)%Q).
  { unfold n. change 1%Q with (inject_Z (Z.of_nat 1)). apply inject_nat_lt. lia. }
  assert (Hn1 : ~ (n - 1 == 0)%Q) by lra.
  pose proof (stretch_factor_pos T_s n (period_pos _) Hn) as Hc.
  assert (Hts : forall i a, nth_error new i = Some a ->
            (i < k)%nat /\
            (Sample.timestamp a ==
             now - (T_s * n / (n - 1)) * (n - 1 - inject_Z (Z.of_nat i)))%Q).
  { intros i a Ha. destruct (nth_sample _ _ _ _ _ _ _ _ Ha) as [Hi ->].
    split; [exact Hi|].
    rewrite <- stretched_formula by exact Hn1.
    destruct k as [|div]; [lia|]. apply sample_of_timestamp; lia. }
  assert (Hget : forall i, (i < k)%nat -> exists a, nth_error new i = Some a).
  { intros i Hi. eexists. unfold new.
    exact (map_nth_error _ _ _ (enumerate_nth _ _ _ (rows_nth k c buffer i Hi))). }
  exists new. split; [reflexivity|].
  split; [unfold new; rewrite length_map, enumerate_length; apply rows_length|].
  split; [|split; [|split]].
  - intros i j a b Hij Ha Hb.
    destruct (Hts i a Ha) as [_ ->]. destruct (Hts j b Hb) as [_ ->].
    pose proof (inject_nat_lt i j Hij). nra.
  - intros i a Ha. destruct (Hts i a Ha) as [Hi ->].
    assert (Hi0 : (0 <= inject_Z (Z.of_nat i))%Q)
      by (change 0%Q with (inject_Z (Z.of_nat 0)); apply inject_nat_le; lia).
    assert (Hi1 : (inject_Z (Z.of_nat i) <= n - 1)%Q).
    { unfold n. pose proof (inject_nat_le i (k - 1) ltac:(lia)) as Hle.
      rewrite Nat2Z.inj_sub in Hle by lia. unfold Z.sub in Hle.
      rewrite inject_Z_plus, inject_Z_opp in Hle.
      change (inject_Z (Z.of_nat 1)) with 1%Q in Hle. lra. }
    assert (Hfac : (T_s * n / (n - 1) * (n - 1) == n * T_s)%Q) by (field; exact Hn1).
    split; nra.
  - destruct (Hget 0%nat ltac:(lia)) as [a Ha]. exists a. split; [exact Ha|].
    destruct (Hts 0%nat a Ha) as [_ ->]. simpl. field. exact Hn1.
  - destruct (Hget (k - 1)%nat ltac:(lia)) as [b Hb]. exists b. split; [exact Hb|].
    destruct (Hts _ b Hb) as [_ ->].
    rewrite Nat2Z.inj_sub by lia. unfold Z.sub.
    rewrite inject_Z_plus, inject_Z_opp. fold n.
    change (inject_Z (Z.of_nat 1)) with 1%Q. field. exact Hn1.
Qed.

Lemma packet_timestamps_ascend_witness :
  let s := {| cls := initial;
              self := {| sensor_type := GYROSCOPE; sampling_rate := _208_HZ;
                         id := 0; path := [1; 0]; data := [] |} |} in
  exists a b,
    data (self (snd (notification_handler 5 "6C:EC" [1; 2; 3; 4; 5; 6]%Q s)))
      = [a; b] /\
    (Sample.timestamp a < Sample.timestamp b)%Q.
Proof.
  intros s.
  destruct (packet_timestamps_ascend 5 "6C:EC" [1; 2; 3; 4; 5; 6]%Q s 2
              ltac:(lia) eq_refl) as (new & Hrun & Hlen & Hlt & _).
  rewrite Hrun.
  destruct new as [|a [|b [|c new]]]; try discriminate Hlen.
  exists a, b. split; [reflexivity|].
  exact (Hlt 0%nat 1%nat a b ltac:(lia) eq_refl eq_refl).
Defined.
